(** * draw_networkx_edges with arrowheads: a shallow embedding

    The repository consists of one Python function,
    [draw_networkx_edges] (src/draw_networkx_edges_arrows.py).  It is
    embedded here as Rocq functions:

    - Python floats and numpy.float64 values are IEEE 754 binary64 numbers;
      they are modelled by Rocq's primitive floats, so [+], [*], [/],
      [sqrt], [==] and [<] below are the very operations Python performs
      (numpy scalars do not raise on a division by zero, they return an
      infinity or a NaN).
    - [numpy.cos], [numpy.sin] and [numpy.arctan2] come from the platform's
      libm, and the reductions of [numpy.amin] and [numpy.amax] from numpy's
      loops; they are section variables.
    - [pos] is a Python dict: a [gmap].
    - exceptions are an error type [res]; the axes object the function
      draws on is an explicit state. *)

From Stdlib Require Import Floats ZArith.
From stdpp Require Import base option list gmap strings.

Set Warnings "-inexact-float".

(** ** Exceptions *)

Inductive exn :=
| KeyError (n : nat)
| TypeError
| ValueError (msg : string)
| AssertionError
| IndexError
| ZeroDivisionError.

Inductive res (A : Type) :=
| Ok (a : A)
| Raise (e : exn).
Arguments Ok {A} a.
Arguments Raise {A} e.

#[global] Instance res_ret : MRet res := fun A a => Ok a.
#[global] Instance res_bind : MBind res := fun A B f m =>
  match m with
  | Ok a => f a
  | Raise e => Raise e
  end.

(** [l[i]] on a Python list, for an index that is not negative. *)
Definition py_index {A} (l : list A) (i : nat) : res A :=
  match l !! i with
  | Some a => Ok a
  | None => Raise IndexError
  end.

(** ** Data *)

Abbreviation node := nat.
Abbreviation point := (float * float)%type.
Abbreviation segment := (point * point)%type.
Abbreviation triangle := (point * point * point)%type.

Record Graph := {
  is_directed : bool;
  G_edges : list (node * node)
}.

(** The [width] argument: a number or an iterable of numbers. *)
Inductive width_arg :=
| WidthScalar (w : float)
| WidthList (l : list float).

(** One element of an [edge_color] sequence. *)
Inductive color_item :=
| CName (s : string)         (* string-like *)
| CNumber (x : float)        (* neither string-like nor iterable *)
| CSeq (xs : list float).    (* iterable, such as an rgb or rgba tuple *)

(** The [edge_color] argument. *)
Inductive color_arg :=
| EName (s : string)
| ENumber (x : float)
| EList (l : list color_item).

Definition item_arg (c : color_item) : color_arg :=
  match c with
  | CName s => EName s
  | CNumber x => ENumber x
  | CSeq xs => EList (CNumber <$> xs)
  end.

Inductive cmap_arg :=
| Colormap (name : string)
| NotAColormap.

(** ** The rendering collaborator

    A collection is what [LineCollection(...)] and [PolyCollection(...)]
    build; the axes keep the collections added to them, the updates of
    their data limits in the order they were made, and the number of
    [autoscale_view] calls. *)

Inductive geometry :=
| Segments (l : list segment)
| Polygons (l : list triangle).

Inductive clim :=
| ClimUnset
| ClimSet (vmin vmax : option float)
| ClimAutoscaled.

Record collection := {
  geom : geometry;
  colors : option (list (list float));
  outline : option string;
  linewidths : option (list float);
  linestyle : option string;
  zorder : option Z;
  coll_label : option string;
  coll_alpha : option float;
  coll_array : option (list color_item);
  coll_cmap : option cmap_arg;
  coll_clim : clim
}.

(** The data limits of the axes are updated in two ways: by
    [add_collection], which merges the limits of the collection it is given
    (its [autolim] argument is left at [True] on lines 198 and 400), and by
    [update_datalim], which merges the corners it is given. *)
Inductive limits_update :=
| Autolim (g : geometry)
| Corners (c : point * point).

Record axes := {
  collections : list collection;
  datalim : list limits_update;
  autoscale_view_calls : nat
}.

Definition add_collection (c : collection) (ax : axes) : axes :=
  {| collections := collections ax ++ [c];
     datalim := datalim ax ++ [Autolim (geom c)];
     autoscale_view_calls := autoscale_view_calls ax |}.

(** A collection is a shared object: the axes hold it and the function keeps
    mutating it afterwards.  It is addressed by its index in the axes. *)
Definition mutate (h : nat) (f : collection -> collection) (ax : axes) : axes :=
  {| collections := alter f h (collections ax);
     datalim := datalim ax;
     autoscale_view_calls := autoscale_view_calls ax |}.

Definition update_datalim (corners : point * point) (ax : axes) : axes :=
  {| collections := collections ax;
     datalim := datalim ax ++ [Corners corners];
     autoscale_view_calls := autoscale_view_calls ax |}.

Definition autoscale_view (ax : axes) : axes :=
  {| collections := collections ax;
     datalim := datalim ax;
     autoscale_view_calls := S (autoscale_view_calls ax) |}.

Definition set_zorder (z : Z) (c : collection) : collection :=
  {| geom := geom c; colors := colors c; outline := outline c;
     linewidths := linewidths c; linestyle := linestyle c;
     zorder := Some z; coll_label := coll_label c; coll_alpha := coll_alpha c;
     coll_array := coll_array c; coll_cmap := coll_cmap c;
     coll_clim := coll_clim c |}.

Definition set_label (l : option string) (c : collection) : collection :=
  {| geom := geom c; colors := colors c; outline := outline c;
     linewidths := linewidths c; linestyle := linestyle c;
     zorder := zorder c; coll_label := l; coll_alpha := coll_alpha c;
     coll_array := coll_array c; coll_cmap := coll_cmap c;
     coll_clim := coll_clim c |}.

Definition set_alpha (a : float) (c : collection) : collection :=
  {| geom := geom c; colors := colors c; outline := outline c;
     linewidths := linewidths c; linestyle := linestyle c;
     zorder := zorder c; coll_label := coll_label c; coll_alpha := Some a;
     coll_array := coll_array c; coll_cmap := coll_cmap c;
     coll_clim := coll_clim c |}.

Definition set_mapping (arr : list color_item) (cm : option cmap_arg)
    (cl : clim) (c : collection) : collection :=
  {| geom := geom c; colors := colors c; outline := outline c;
     linewidths := linewidths c; linestyle := linestyle c;
     zorder := zorder c; coll_label := coll_label c; coll_alpha := coll_alpha c;
     coll_array := Some arr; coll_cmap := cm; coll_clim := cl |}.

Definition LineCollection (segs : list segment)
    (cols : option (list (list float))) (lws : list float)
    (style : option string) : collection :=
  {| geom := Segments segs; colors := cols; outline := None;
     linewidths := Some lws; linestyle := style; zorder := None;
     coll_label := None; coll_alpha := None; coll_array := None;
     coll_cmap := None; coll_clim := ClimUnset |}.

Definition PolyCollection (verts : list triangle) (edgecolors : string)
    (facecolors : option (list (list float))) : collection :=
  {| geom := Polygons verts; colors := facecolors;
     outline := Some edgecolors; linewidths := None; linestyle := None;
     zorder := None; coll_label := None; coll_alpha := None;
     coll_array := None; coll_cmap := None; coll_clim := ClimUnset |}.

(** ** The function *)

(** The keyword arguments, with their defaults. *)
Record draw_args := {
  edgelist : option (list (node * node));
  width : width_arg;
  edge_color : color_arg;
  style : string;
  alpha : option float;
  edge_cmap : option cmap_arg;
  edge_vmin : option float;
  edge_vmax : option float;
  arrows : bool;
  arrowheads : bool;
  apos_on_edge : float;
  label : option string
}.

Definition default_args : draw_args :=
  {| edgelist := None; width := WidthScalar 1.0; edge_color := EName "k";
     style := "solid"; alpha := None; edge_cmap := None; edge_vmin := None;
     edge_vmax := None; arrows := true; arrowheads := true;
     apos_on_edge := 0.15; label := None |}.

(** ** Sample environment

    The values the platform's functions take at the right angle, which is the
    only angle met in the worked examples below: [arctan2(50, 0)] is the
    binary64 number nearest to pi/2, whose cosine is not zero. *)

Definition right_angle : float := 1.5707963267948966%float.
Definition sample_arctan2 (y x : float) : float := right_angle.
Definition sample_cos (theta : float) : float := 6.123233995736766e-17%float.
Definition sample_sin (theta : float) : float := 1%float.
(** The least and the greatest element, for lists without a NaN and without
    zeros of both signs, where every reduction gives the same number. *)
Definition sample_amin (l : list float) : float :=
  match l with
  | [] => nan
  | x :: rest =>
      fold_left (fun a b => if (a <=? b)%float then a else b) rest x
  end.
Definition sample_amax (l : list float) : float :=
  match l with
  | [] => nan
  | x :: rest =>
      fold_left (fun a b => if (b <=? a)%float then a else b) rest x
  end.
Definition sample_to_rgba (c : color_arg) (alpha : option float)
    : res (list float) :=
  Ok [0; 0; 0; 1]%float.

Definition empty_axes : axes :=
  {| collections := []; datalim := []; autoscale_view_calls := 0 |}.

Definition no_edge_graph : Graph :=
  {| is_directed := true; G_edges := [] |}.
Definition one_edge_graph : Graph :=
  {| is_directed := true; G_edges := [(0, 1)%nat] |}.

(** Node 0 at (0,0) and node 1 at (0,50). *)
Definition vertical_pos : gmap nat (float * float) :=
  {[ 0%nat := (0, 0)%float; 1%nat := (0, 50)%float ]}.

(** Node 0 at (0,0) and node 1 at (100,0). *)
Definition horizontal_pos : gmap nat (float * float) :=
  {[ 0%nat := (0, 0)%float; 1%nat := (100, 0)%float ]}.

(** Nodes 0 and 1 at (0,0) and node 2 at (0,50), with the edges 0-1, of
    length 0, and 1-2. *)
Definition two_edge_graph : Graph :=
  {| is_directed := true; G_edges := [(0, 1)%nat; (1, 2)%nat] |}.
Definition coincident_pos : gmap nat (float * float) :=
  {[ 0%nat := (0, 0)%float; 1%nat := (0, 0)%float; 2%nat := (0, 50)%float ]}.

(** Five vertical edges of length 50, at the abscissas 0, 10, 20, 30 and
    40; and the same five with the first one shrunk to a point. *)
Definition five_edges : list ((float * float) * (float * float)) :=
  [((0, 0), (0, 50)); ((10, 0), (10, 50)); ((20, 0), (20, 50));
   ((30, 0), (30, 50)); ((40, 0), (40, 50))]%float.
Definition five_edges_first_degenerate
    : list ((float * float) * (float * float)) :=
  [((0, 0), (0, 0)); ((10, 0), (10, 50)); ((20, 0), (20, 50));
   ((30, 0), (30, 50)); ((40, 0), (40, 50))]%float.
Definition two_widths : list float := [1.0; 3.0]%float.

(** The default arguments but for two numbers as [edge_color]. *)
Definition two_colours_args : draw_args :=
  {| edgelist := None; width := WidthScalar 1.0;
     edge_color := EList [CNumber 0.5; CNumber 0.7];
     style := "solid"; alpha := None; edge_cmap := None; edge_vmin := None;
     edge_vmax := None; arrows := true; arrowheads := true;
     apos_on_edge := 0.15; label := None |}.

(** Node 0 has a position, node 1 has none. *)
Definition partial_pos : gmap nat (float * float) :=
  {[ 0%nat := (0, 0)%float ]}.

(** The default arguments but for a colour name and a number as
    [edge_color]. *)
Definition mixed_colours_args : draw_args :=
  {| edgelist := None; width := WidthScalar 1.0;
     edge_color := EList [CName "r"; CNumber 0.5];
     style := "solid"; alpha := None; edge_cmap := None; edge_vmin := None;
     edge_vmax := None; arrows := true; arrowheads := true;
     apos_on_edge := 0.15; label := None |}.

(** Two numbers as [edge_color] and an [edge_cmap] that is no colormap. *)
Definition bad_colormap_args : draw_args :=
  {| edgelist := None; width := WidthScalar 1.0;
     edge_color := EList [CNumber 0.5; CNumber 0.7];
     style := "solid"; alpha := None; edge_cmap := Some NotAColormap;
     edge_vmin := None; edge_vmax := None; arrows := true;
     arrowheads := true; apos_on_edge := 0.15; label := None |}.

(** The default arguments but for rectangular arrowheads. *)
Definition rectangular_args : draw_args :=
  {| edgelist := None; width := WidthScalar 1.0; edge_color := EName "k";
     style := "solid"; alpha := None; edge_cmap := None; edge_vmin := None;
     edge_vmax := None; arrows := true; arrowheads := false;
     apos_on_edge := 0.15; label := None |}.

(** The default arguments but for an empty [edgelist]. *)
Definition empty_edgelist_args : draw_args :=
  {| edgelist := Some []; width := WidthScalar 1.0; edge_color := EName "k";
     style := "solid"; alpha := None; edge_cmap := None; edge_vmin := None;
     edge_vmax := None; arrows := true; arrowheads := true;
     apos_on_edge := 0.15; label := None |}.

Section Draw.

(** [numpy.cos], [numpy.sin], [numpy.arctan2]: the platform's libm. *)
Variables np_cos np_sin : float -> float.
Variable np_arctan2 : float -> float -> float.
(** The reductions of [numpy.amin] and [numpy.amax] on an array that is not
    empty; which of two zeros of different sign they return is up to the
    library. *)
Variables np_amin np_amax : list float -> float.
(** [matplotlib.colors.colorConverter.to_rgba(c, alpha)]; it raises
    [ValueError] on what it cannot read as a colour. *)
Variable to_rgba : color_arg -> option float -> res (list float).

Local Open Scope float_scope.

(** *** Lines 146-184: the edge list, the widths, the colours *)

(** [numpy.asarray([(pos[e[0]], pos[e[1]]) for e in edgelist])] *)
Definition pos_lookup (pos : gmap node point) (n : node) : res point :=
  match pos !! n with
  | Some xy => Ok xy
  | None => Raise (KeyError n)
  end.

Fixpoint edge_positions (pos : gmap node point) (edgelist : list (node * node))
    : res (list segment) :=
  match edgelist with
  | [] => mret []
  | e :: rest =>
      src ← pos_lookup pos e.1;
      dst ← pos_lookup pos e.2;
      tl ← edge_positions pos rest;
      mret ((src, dst) :: tl)
  end.

Definition line_widths (width : width_arg) : list float :=
  match width with
  | WidthScalar w => [w]
  | WidthList l => l
  end.

Definition is_string_like (c : color_item) : bool :=
  match c with
  | CName _ => true
  | _ => false
  end.

(** [cb.iterable(c) and len(c) in (3, 4)], for [c] that is not a string *)
Definition is_rgb_or_rgba (c : color_item) : bool :=
  match c with
  | CSeq xs => Nat.eqb (length xs) 3 || Nat.eqb (length xs) 4
  | _ => false
  end.

Definition raw_color (c : color_item) : list float :=
  match c with
  | CSeq xs => xs
  | CNumber x => [x]
  | CName _ => []
  end.

Fixpoint to_rgba_all (alpha : option float) (l : list color_item)
    : res (list (list float)) :=
  match l with
  | [] => mret []
  | c :: rest =>
      c' ← to_rgba (item_arg c) alpha;
      tl ← to_rgba_all alpha rest;
      mret (c' :: tl)
  end.

Definition msg_names_or_numbers : string :=
  "edge_color must consist of either color names or numbers".
Definition msg_single_or_m : string :=
  "edge_color must be a single color or list of exactly m colors where m is the number or edges".

(** Lines 160-184.  [None] for the colours means: numbers, to be mapped with
    a colormap. *)
Definition edge_colors_of (edge_color : color_arg) (alpha : option float)
    (n_edges : nat) : res (option (list (list float))) :=
  match edge_color with
  | EList l =>
      if Nat.eqb (length l) n_edges then
        if forallb is_string_like l then
          cs ← to_rgba_all alpha l; mret (Some cs)
        else if forallb (fun c => negb (is_string_like c)) l then
          if forallb is_rgb_or_rgba l then mret (Some (raw_color <$> l))
          else mret None
        else Raise (ValueError msg_names_or_numbers)
      else if Nat.eqb (length l) 1 then
        c ← to_rgba edge_color alpha; mret (Some [c])
      else Raise (ValueError msg_single_or_m)
  | EName _ =>
      c ← to_rgba edge_color alpha; mret (Some [c])
  | ENumber _ =>
      (* not iterable: the [else] arm asks for [len(edge_color)] *)
      Raise TypeError
  end.

(** *** Lines 227-302: the loop over the edges *)

Record arrow_state := {
  a_pos : list segment;
  orthoslope : list float;
  thetas : list float;
  lengths : list float;
  p : float
}.

Definition arrow_init : arrow_state :=
  {| a_pos := []; orthoslope := []; thetas := []; lengths := [];
     p := 1.0 - 0.25 |}.

(** Line 249, [numpy.sqrt(float(dx**2 + dy**2))]; a square is the rounded
    product. *)
Definition edge_length (e : segment) : float :=
  let '((x1, y1), (x2, y2)) := e in
  let dx := x2 - x1 in
  let dy := y2 - y1 in
  sqrt (dx * dx + dy * dy).

(** The test of line 259, [d == 0] *)
Definition degenerate (e : segment) : bool :=
  edge_length e =? 0.

(** The test of line 264, [dy == 0] *)
Definition horizontal (e : segment) : bool :=
  e.2.2 - e.1.2 =? 0.

(** The edges that get past the [continue] of line 260. *)
Local Abbreviation live := (List.filter (fun e => negb (degenerate e))).

(** Line 268, [numpy.arctan2(dy, dx)] *)
Definition edge_angle (e : segment) : float :=
  np_arctan2 (e.2.2 - e.1.2) (e.2.1 - e.1.1).

(** Line 257 *)
Definition head_fraction (d : float) : float :=
  1.0 - 0.25 / (2 * d / 100.0).

(** Lines 297-302 *)
Definition orthoslope_denominator (y2 ya : float) : float :=
  let dy2 := y2 - ya in
  if dy2 =? 0 then 0.00000000000001 else dy2.

Definition orthoslope_of (s : segment) : float :=
  let '((xa, ya), (x2, y2)) := s in
  let dx2 := x2 - xa in
  (-1.0 * dx2) / orthoslope_denominator y2 ya.

(** Lines 261-285: the segment appended to [a_pos] and, when the [else] arm
    runs, the angle appended to [thetas].  [xa] and [ya] are assigned by the
    first conditional for a vertical edge and then assigned again by
    whichever arm of the second conditional runs. *)
Definition shaft (arrowheads : bool) (e : segment) : segment * option float :=
  let '((x1, y1), (x2, y2)) := e in
  let dx := x2 - x1 in
  let dy := y2 - y1 in
  let d := edge_length e in
  let p := head_fraction d in
  let xa_ya := if dx =? 0 then Some (x2, dy * p + y1) else None in
  if dy =? 0 then
    let ya := y2 in
    let xa := dx * p + x1 in
    (((xa, ya), (x2, y2)), None)
  else
    let theta := np_arctan2 dy dx in
    let xa := p * d * np_cos theta + x1 in
    let ya := p * d * np_sin theta + y1 in
    if negb arrowheads then
      let xa := p * p * d * np_cos theta + x1 in
      let ya := p * p * d * np_sin theta + y1 in
      let x2 := 1.05 * p * p * d * np_cos theta + x1 in
      let y2 := 1.05 * p * p * d * np_sin theta + y1 in
      (((xa, ya), (x2, y2)), Some theta)
    else
      (((xa, ya), (x2, y2)), Some theta).

(** One iteration of [for src, dst in edge_pos]. *)
Definition edge_body (arrowheads : bool) (st : arrow_state) (e : segment)
    : arrow_state :=
  let d := edge_length e in
  let lengths1 := lengths st ++ [d] in
  let p1 := head_fraction d in
  if d =? 0 then
    (* continue *)
    {| a_pos := a_pos st; orthoslope := orthoslope st; thetas := thetas st;
       lengths := lengths1; p := p1 |}
  else
    let '(seg, theta) := shaft arrowheads e in
    {| a_pos := a_pos st ++ [seg];
       orthoslope := orthoslope st ++ [orthoslope_of seg];
       thetas := thetas st ++ option_list theta;
       lengths := lengths1;
       p := p1 |}.

Definition arrow_loop (arrowheads : bool) (edge_pos : list segment)
    : arrow_state :=
  fold_left (edge_body arrowheads) edge_pos arrow_init.

(** *** Lines 327-357: the two wing vertices of every arrowhead *)

Record wings := {
  vertex1_x : list float;
  vertex1_y : list float;
  vertex2_x : list float;
  vertex2_y : list float
}.

Definition no_wings : wings :=
  {| vertex1_x := []; vertex1_y := []; vertex2_x := []; vertex2_y := [] |}.

(** Lines 337-340.  [i % len(dist)] raises when [dist] is empty. *)
Definition dist_to_use (p : float) (dist : list float) (i : nat) : res float :=
  if Nat.ltb (length dist) (i + 1) then
    match length dist with
    | O => Raise ZeroDivisionError
    | S _ => w ← py_index dist (i mod length dist); mret (p * w)
    end
  else
    w ← py_index dist i; mret (p * w).

(** The wing offset as the specification words it, with the squared slope. *)
Definition arrow_width_as_specified (d slope : float) : float :=
  sqrt ((d * d) / (1 + slope * slope)).

(** Lines 342-345 *)
Definition arrow_width (dist_to_use slope : float) : float :=
  if (dist_to_use * dist_to_use) / (1 + slope) <? 0 then
    0.5 * sqrt ((-1) * (dist_to_use * dist_to_use) / (1 + slope))
  else
    sqrt ((dist_to_use * dist_to_use) / (1 + slope)).

(** One iteration of [for i in range(0, len(a_pos))].  [vertex1_x[i]] and
    [vertex2_x[i]] in lines 356-357 are the elements appended in lines
    347-348 of the same iteration. *)
Definition wing_body (st : arrow_state) (dist : list float)
    (acc : res wings) (i : nat) : res wings :=
  w ← acc;
  d ← dist_to_use (p st) dist i;
  slope ← py_index (orthoslope st) i;
  let aw := arrow_width d slope in
  seg ← py_index (a_pos st) i;
  let '((xa, ya), _) := seg in
  let v1x := xa + aw in
  let v2x := xa - aw in
  mret {| vertex1_x := vertex1_x w ++ [v1x];
          vertex2_x := vertex2_x w ++ [v2x];
          vertex1_y := vertex1_y w ++ [ya + 1.0 * slope * (v1x - xa)];
          vertex2_y := vertex2_y w ++ [ya + 1.0 * slope * (v2x - xa)] |}.

Definition wing_loop (st : arrow_state) (dist : list float) : res wings :=
  fold_left (wing_body st dist) (seq 0 (length (a_pos st))) (Ok no_wings).

(** *** Lines 367-370: the triangles *)

Definition a_vert (apos_on_edge : float) (st : arrow_state) (w : wings)
    (i : nat) : res triangle :=
  v1x ← py_index (vertex1_x w) i;
  len ← py_index (lengths st) i;
  theta ← py_index (thetas st) i;
  v1y ← py_index (vertex1_y w) i;
  v2x ← py_index (vertex2_x w) i;
  v2y ← py_index (vertex2_y w) i;
  seg ← py_index (a_pos st) i;
  let '(_, (x2, y2)) := seg in
  mret ((v1x - apos_on_edge * len * np_cos theta,
         v1y - apos_on_edge * len * np_sin theta),
        (v2x - apos_on_edge * len * np_cos theta,
         v2y - apos_on_edge * len * np_sin theta),
        (x2 - apos_on_edge * len * np_cos theta,
         y2 - apos_on_edge * len * np_sin theta)).

Fixpoint a_verts_from (apos_on_edge : float) (st : arrow_state) (w : wings)
    (indices : list nat) : res (list triangle) :=
  match indices with
  | [] => mret []
  | i :: rest =>
      t ← a_vert apos_on_edge st w i;
      tl ← a_verts_from apos_on_edge st w rest;
      mret (t :: tl)
  end.

Definition a_verts (apos_on_edge : float) (st : arrow_state) (w : wings)
    : res (list triangle) :=
  a_verts_from apos_on_edge st w (seq 0 (length (a_pos st))).

(** *** Lines 227-395: the arrow collection *)

Definition arrow_collection (arrowheads : bool) (apos_on_edge : float)
    (lw : list float) (arrow_colors : option (list (list float)))
    (edge_pos : list segment) : res collection :=
  let st := arrow_loop arrowheads edge_pos in
  if arrowheads then
    let dist := (fun ww => 2.0 * ww) <$> lw in
    w ← wing_loop st dist;
    verts ← a_verts apos_on_edge st w;
    mret (PolyCollection verts "brown" arrow_colors)
  else
    mret (LineCollection (a_pos st) arrow_colors
            ((fun ww => 10.0 * ww) <$> lw) None).

(** *** Lines 402-413: the view *)

(** [numpy.amin] and [numpy.amax]: they raise on an empty array and reduce
    any other with the library's own loop, [np_amin] and [np_amax]. *)
Definition amin (l : list float) : res float :=
  match l with
  | [] => Raise (ValueError "zero-size array to reduction operation minimum which has no identity")
  | _ :: _ => Ok (np_amin l)
  end.
Definition amax (l : list float) : res float :=
  match l with
  | [] => Raise (ValueError "zero-size array to reduction operation maximum which has no identity")
  | _ :: _ => Ok (np_amax l)
  end.

(** [numpy.ravel(edge_pos[:, :, 0])] and [numpy.ravel(edge_pos[:, :, 1])] *)
Definition xs_of (edge_pos : list segment) : list float :=
  e ← edge_pos; [e.1.1; e.2.1].
Definition ys_of (edge_pos : list segment) : list float :=
  e ← edge_pos; [e.1.2; e.2.2].

Definition view_corners (edge_pos : list segment) : res (point * point) :=
  minx ← amin (xs_of edge_pos);
  maxx ← amax (xs_of edge_pos);
  miny ← amin (ys_of edge_pos);
  maxy ← amax (ys_of edge_pos);
  let w := maxx - minx in
  let h := maxy - miny in
  let padx := 0.05 * w in
  let pady := 0.05 * h in
  mret ((minx - padx, miny - pady), (maxx + padx, maxy + pady)).

(** *** The whole function

    [ax] is the axes the function draws on (the argument, or the current
    axes); the imports of lines 130-141 are taken to succeed.  The result is
    what is returned or raised together with the axes as the call leaves
    them; a returned collection is given by its index in the axes. *)
Definition draw_networkx_edges (G : Graph) (pos : gmap node point)
    (a : draw_args) (ax : axes) : res (option nat) * axes :=
  let edgelist := default (G_edges G) (edgelist a) in
  match edgelist with
  | [] => (Ok None, ax)
  | _ :: _ =>
  match edge_positions pos edgelist with
  | Raise e => (Raise e, ax)
  | Ok edge_pos =>
  let lw := line_widths (width a) in
  match edge_colors_of (edge_color a) (alpha a) (length edge_pos) with
  | Raise e => (Raise e, ax)
  | Ok edge_colors =>
  let edge_collection :=
    set_label (label a)
      (set_zorder 1 (LineCollection edge_pos edge_colors lw (Some (style a)))) in
  let h := length (collections ax) in
  let ax := add_collection edge_collection ax in
  let ax :=
    match alpha a with
    | Some al => mutate h (set_alpha al) ax
    | None => ax
    end in
  let mapped :=
    match edge_colors with
    | Some _ => Ok ax
    | None =>
        match edge_cmap a with
        | Some NotAColormap => Raise AssertionError
        | _ =>
            let arr := match edge_color a with EList l => l | _ => [] end in
            let cl :=
              match edge_vmin a, edge_vmax a with
              | None, None => ClimAutoscaled
              | vmin, vmax => ClimSet vmin vmax
              end in
            Ok (mutate h (set_mapping arr (edge_cmap a) cl) ax)
        end
    end in
  match mapped with
  | Raise e => (Raise e, ax)
  | Ok ax =>
  let with_arrows :=
    if is_directed G && arrows a then
      c ← arrow_collection (arrowheads a) (apos_on_edge a) lw edge_colors
            edge_pos;
      mret (add_collection (set_label (label a) (set_zorder 1 c)) ax)
    else mret ax in
  match with_arrows with
  | Raise e => (Raise e, ax)
  | Ok ax =>
  match view_corners edge_pos with
  | Raise e => (Raise e, ax)
  | Ok corners =>
      (Ok (Some h), autoscale_view (update_datalim corners ax))
  end end end end end end.

(** What the wing lists hold at index [i]. *)
Definition wings_at (st : arrow_state) (dist : list float) (w : wings)
    (i : nat) : Prop :=
  forall xa ya tip s dw,
    a_pos st !! i = Some ((xa, ya), tip) ->
    orthoslope st !! i = Some s ->
    dist !! (i mod length dist) = Some dw ->
    vertex1_x w !! i = Some (xa + arrow_width (p st * dw) s) /\
    vertex2_x w !! i = Some (xa - arrow_width (p st * dw) s) /\
    vertex1_y w !! i =
      Some (ya + 1.0 * s * (xa + arrow_width (p st * dw) s - xa)) /\
    vertex2_y w !! i =
      Some (ya + 1.0 * s * (xa - arrow_width (p st * dw) s - xa)).

(** *** The edge collection as the call leaves it

    Lines 186-197 build the collection, lines 205-206 set its alpha and
    lines 208-216 its colour mapping. *)

Definition edge_line (a : draw_args) (edge_pos : list segment)
    (edge_colors : option (list (list float))) : collection :=
  set_label (label a)
    (set_zorder 1
       (LineCollection edge_pos edge_colors (line_widths (width a))
          (Some (style a)))).

Definition edge_line_with_alpha (a : draw_args) (edge_pos : list segment)
    (edge_colors : option (list (list float))) : collection :=
  match alpha a with
  | Some al => set_alpha al (edge_line a edge_pos edge_colors)
  | None => edge_line a edge_pos edge_colors
  end.

(** Lines 213-216 *)
Definition clim_of (a : draw_args) : clim :=
  match edge_vmin a, edge_vmax a with
  | None, None => ClimAutoscaled
  | vmin, vmax => ClimSet vmin vmax
  end.

(** Line 210: the assertion fails. *)
Definition cmap_rejected (a : draw_args)
    (edge_colors : option (list (list float))) : bool :=
  match edge_colors, edge_cmap a with
  | None, Some NotAColormap => true
  | _, _ => false
  end.

Definition drawn_edge_line (a : draw_args) (edge_pos : list segment)
    (edge_colors : option (list (list float))) : collection :=
  match edge_colors with
  | Some _ => edge_line_with_alpha a edge_pos edge_colors
  | None =>
      set_mapping (match edge_color a with EList l => l | _ => [] end)
        (edge_cmap a) (clim_of a)
        (edge_line_with_alpha a edge_pos edge_colors)
  end.

(** Lines 227-400 on axes [ax1]: the arrow collection, when there is one,
    is labelled, put behind the nodes and added. *)
Definition arrows_added (G : Graph) (a : draw_args) (edge_pos : list segment)
    (edge_colors : option (list (list float))) (ax1 : axes) : res axes :=
  if is_directed G && arrows a then
    c ← arrow_collection (arrowheads a) (apos_on_edge a)
          (line_widths (width a)) edge_colors edge_pos;
    mret (add_collection (set_label (label a) (set_zorder 1 c)) ax1)
  else mret ax1.

(** Lines 367-369: a point moved back by [amount] along the direction
    [theta]. *)
Definition moved_back (amount theta : float) (pt : point) : point :=
  (pt.1 - amount * np_cos theta, pt.2 - amount * np_sin theta).

(** * Properties *)

(** ** The loop over the edges *)

Lemma edge_body_degenerate ah st e :
  degenerate e = true ->
  edge_body ah st e =
    {| a_pos := a_pos st; orthoslope := orthoslope st; thetas := thetas st;
       lengths := lengths st ++ [edge_length e];
       p := head_fraction (edge_length e) |}.
Proof.
  unfold degenerate, edge_body. intros ->. reflexivity.
Qed.

Lemma edge_body_live ah st e :
  degenerate e = false ->
  edge_body ah st e =
    {| a_pos := a_pos st ++ [(shaft ah e).1];
       orthoslope := orthoslope st ++ [orthoslope_of (shaft ah e).1];
       thetas := thetas st ++ option_list (shaft ah e).2;
       lengths := lengths st ++ [edge_length e];
       p := head_fraction (edge_length e) |}.
Proof.
  unfold degenerate, edge_body. intros ->.
  destruct (shaft ah e) as [seg theta]. reflexivity.
Qed.

(** What the loop has appended to each of its lists, from any state. *)
Lemma fold_edge_body ah es : forall st,
  let st' := fold_left (edge_body ah) es st in
  a_pos st' = a_pos st ++ ((fun e => (shaft ah e).1) <$> live es) /\
  orthoslope st' =
    orthoslope st ++ ((fun e => orthoslope_of (shaft ah e).1) <$> live es) /\
  thetas st' =
    thetas st ++ omap (fun e => (shaft ah e).2) (live es) /\
  lengths st' = lengths st ++ (edge_length <$> es).
Proof.
  induction es as [|e es IH]; intros st; simpl.
  - rewrite !app_nil_r. done.
  - destruct (IH (edge_body ah st e)) as (Ha & Ho & Ht & Hl).
    cbv zeta in *. rewrite Ha, Ho, Ht, Hl.
    destruct (degenerate e) eqn:He; simpl.
    + rewrite (edge_body_degenerate _ _ _ He); simpl.
      rewrite <- !app_assoc. done.
    + rewrite (edge_body_live _ _ _ He); simpl.
      rewrite <- !app_assoc. destruct (shaft ah e).2; done.
Qed.

Lemma arrow_loop_a_pos ah es :
  a_pos (arrow_loop ah es) = (fun e => (shaft ah e).1) <$> live es.
Proof. apply (fold_edge_body ah es arrow_init). Qed.

Lemma arrow_loop_orthoslope ah es :
  orthoslope (arrow_loop ah es) = orthoslope_of <$> a_pos (arrow_loop ah es).
Proof.
  rewrite arrow_loop_a_pos, <- list_fmap_compose.
  apply (fold_edge_body ah es arrow_init).
Qed.

Lemma arrow_loop_thetas ah es :
  thetas (arrow_loop ah es) = omap (fun e => (shaft ah e).2) (live es).
Proof. apply (fold_edge_body ah es arrow_init). Qed.

Lemma arrow_loop_lengths ah es :
  lengths (arrow_loop ah es) = edge_length <$> es.
Proof. apply (fold_edge_body ah es arrow_init). Qed.

(** [p] is left at the value computed for the last edge of the list, be it
    degenerate or not. *)
Lemma arrow_loop_p ah es e :
  p (arrow_loop ah (es ++ [e])) = head_fraction (edge_length e).
Proof.
  unfold arrow_loop. rewrite fold_left_app. simpl.
  unfold edge_body.
  destruct (edge_length e =? 0)%float; [reflexivity|].
  destruct (shaft ah e). reflexivity.
Qed.

Lemma filter_split_length {A} (f : A -> bool) (l : list A) :
  (length (List.filter (fun x => negb (f x)) l) +
   length (List.filter f l) = length l)%nat.
Proof.
  induction l as [|x l IH]; simpl; [done|].
  destruct (f x); simpl; lia.
Qed.

(** ** Degenerate edges (C4) *)

Lemma finite_cases x :
  is_finite x = true ->
  (exists s, Prim2SF x = S754_zero s) \/
  (exists s m e, Prim2SF x = S754_finite s m e).
Proof.
  unfold is_finite, is_nan, is_infinity.
  rewrite !FloatAxioms.eqb_spec, abs_spec.
  change (Prim2SF infinity) with (S754_infinity false).
  destruct (Prim2SF x) as [s|s| |s m e]; eauto;
    try destruct s; discriminate.
Qed.

Lemma sub_diag_finite x : is_finite x = true -> x - x = 0.
Proof.
  intros Hx. apply Prim2SF_inj. rewrite sub_spec.
  change (Prim2SF 0) with (S754_zero false).
  destruct (finite_cases x Hx) as [[s ->]|(s & m & e & ->)].
  - destruct s; reflexivity.
  - unfold SF64sub, SFsub. rewrite Z.sub_diag. reflexivity.
Qed.

(** An edge between two equal points with finite coordinates has length 0. *)
Lemma coincident_degenerate x y :
  is_finite x = true -> is_finite y = true ->
  degenerate ((x, y), (x, y)) = true.
Proof.
  intros Hx Hy. unfold degenerate, edge_length.
  rewrite (sub_diag_finite x Hx), (sub_diag_finite y Hy). reflexivity.
Qed.


(** ** The orthogonal slope (C9) *)

Lemma orthoslope_denominator_nonzero y2 ya :
  (orthoslope_denominator y2 ya =? 0) = false.
Proof.
  unfold orthoslope_denominator.
  destruct (y2 - ya =? 0) eqn:E; [reflexivity | exact E].
Qed.

(** C9: every segment of [a_pos] has its orthogonal slope, at the same
    index; the slope is minus the x difference divided by a denominator that
    is never equal to zero: the y difference, or 1e-14 when the y difference
    is zero.  The loop is a total function, so the slope is always
    computed. *)
Theorem orthoslope_never_divides_by_zero (arrowheads : bool)
    (edge_pos : list segment) (i : nat) (xa ya x2 y2 : float) :
  let st := arrow_loop arrowheads edge_pos in
  a_pos st !! i = Some ((xa, ya), (x2, y2)) ->
  orthoslope st !! i =
    Some ((-1.0 * (x2 - xa)) / orthoslope_denominator y2 ya) /\
  (orthoslope_denominator y2 ya =? 0) = false /\
  ((y2 - ya =? 0) = true ->
     orthoslope_denominator y2 ya = 0.00000000000001) /\
  ((y2 - ya =? 0) = false -> orthoslope_denominator y2 ya = y2 - ya) /\
  length (orthoslope st) = length (a_pos st).
Proof.
  cbv zeta. intros Hi. rewrite arrow_loop_orthoslope, list_lookup_fmap.
  rewrite Hi, length_fmap. repeat split.
  - apply orthoslope_denominator_nonzero.
  - unfold orthoslope_denominator. intros ->. reflexivity.
  - unfold orthoslope_denominator. intros ->. reflexivity.
Qed.

(** ** Axis-aligned edges (C1, C3, C5) *)

(** A horizontal edge keeps the values of lines 265-266, whatever libm is,
    and appends no angle. *)
Lemma horizontal_edge_shaft arrowheads x1 y1 x2 y2 :
  (y2 - y1 =? 0) = true ->
  shaft arrowheads ((x1, y1), (x2, y2)) =
    ((((x2 - x1) * head_fraction (edge_length ((x1, y1), (x2, y2))) + x1, y2),
      (x2, y2)), None).
Proof. unfold shaft. intros ->. reflexivity. Qed.

(** An edge that is not horizontal, vertical or not, gets the values of
    lines 268-271 in triangular mode. *)
Lemma sloped_edge_shaft x1 y1 x2 y2 :
  (y2 - y1 =? 0) = false ->
  let e := ((x1, y1), (x2, y2)) in
  let d := edge_length e in
  let theta := np_arctan2 (y2 - y1) (x2 - x1) in
  shaft true e =
    (((head_fraction d * d * np_cos theta + x1,
       head_fraction d * d * np_sin theta + y1), (x2, y2)), Some theta).
Proof. cbv zeta. unfold shaft. intros ->. reflexivity. Qed.

(** C1, at the vertical edge from (0,0) to (0,50): lines 262-263 would give
    the end point (0, 37.5), but the [else] arm of the second conditional
    runs as well: the angle is appended to [thetas] and the end point that
    is stored is the one of the trigonometric formula. *)
Theorem vertical_edge_takes_the_trigonometric_arm :
  let theta := np_arctan2 50 0 in
  (0, (50 - 0) * head_fraction 50 + 0) = (0, 37.5) /\
  arrow_loop true [((0, 0), (0, 50))] =
    {| a_pos :=
         [((37.5 * np_cos theta + 0, 37.5 * np_sin theta + 0), (0, 50))];
       orthoslope :=
         [orthoslope_of
            ((37.5 * np_cos theta + 0, 37.5 * np_sin theta + 0), (0, 50))];
       thetas := [theta];
       lengths := [50];
       p := 0.75 |}.
Proof. split; reflexivity. Qed.

(** C3, with the values libm has at the right angle: the end point stored
    for the vertical edge from (0,0) to (0,50) has the abscissa
    37.5 * cos(pi/2) = 2.2962127484012872e-15, which is not 0. *)
Theorem vertical_edge_shaft_end_is_inexact :
  np_arctan2 50 0 = right_angle ->
  np_cos right_angle = 6.123233995736766e-17 ->
  np_sin right_angle = 1 ->
  a_pos (arrow_loop true [((0, 0), (0, 50))]) =
    [((2.2962127484012872e-15, 37.5), (0, 50))] /\
  (2.2962127484012872e-15 =? 0) = false.
Proof.
  intros Hatan Hcos Hsin. split; [|reflexivity].
  change (a_pos (arrow_loop true [((0, 0), (0, 50))])) with
    [((37.5 * np_cos (np_arctan2 50 0) + 0,
       37.5 * np_sin (np_arctan2 50 0) + 0), (0, 50))].
  rewrite Hatan, Hcos, Hsin. reflexivity.
Qed.

(** C5, at the horizontal edge from (0,0) to (100,0) in triangular mode:
    the edge has a segment in [a_pos] but no angle in [thetas], and building
    the triangles raises [IndexError]. *)
Theorem horizontal_edge_raises_index_error
    (cols : option (list (list float))) :
  a_pos (arrow_loop true [((0, 0), (100, 0))]) = [((87.5, 0), (100, 0))] /\
  thetas (arrow_loop true [((0, 0), (100, 0))]) = [] /\
  arrow_collection true 0.15 [1.0] cols [((0, 0), (100, 0))] =
    Raise IndexError.
Proof. repeat split; reflexivity. Qed.

(** ** Cycling through the widths (C7) *)

Lemma dist_to_use_cycles p0 dist i :
  dist <> [] ->
  dist_to_use p0 dist i =
    (w ← py_index dist (i mod length dist); mret (p0 * w)).
Proof.
  intros Hne. unfold dist_to_use.
  destruct (Nat.ltb_spec (length dist) (i + 1)) as [Hlt|Hge].
  - destruct dist; [done | reflexivity].
  - rewrite Nat.mod_small by lia. reflexivity.
Qed.

(** Lines 337-340 on their own: with a width list that is not empty, the
    distance for index [i] is [p] times twice the width at index
    [i mod len(lw)]; with two widths, index 4 takes the width at index 0.
    The index is the one of the wing loop, which counts the segments of
    [a_pos]. *)
Lemma widths_are_used_cyclically (p0 : float) (lw : list float) (i : nat) :
  lw <> [] ->
  (exists w, lw !! (i mod length lw) = Some w /\
     dist_to_use p0 ((fun ww => 2.0 * ww) <$> lw) i = Ok (p0 * (2.0 * w))) /\
  (forall w0 w1,
     dist_to_use p0 ((fun ww => 2.0 * ww) <$> [w0; w1]) 4 =
       Ok (p0 * (2.0 * w0))).
Proof.
  intros Hne. split; [|reflexivity].
  assert (Hlen : (i mod length lw < length lw)%nat).
  { apply Nat.mod_upper_bound. destruct lw; [done | simpl; lia]. }
  destruct (lookup_lt_is_Some_2 lw _ Hlen) as [w Hw].
  exists w. split; [exact Hw|].
  rewrite dist_to_use_cycles by (destruct lw; done).
  unfold py_index. rewrite length_fmap, list_lookup_fmap, Hw. reflexivity.
Qed.

(** C7, at five edges with the two widths 1.0 and 3.0 in triangular mode,
    with the values libm has at the right angle.  When the five edges have
    a nonzero length, the arrow of edge 4 is arrow 4 and takes the width at
    index 4 mod 2 = 0: its distance is 0.75 * 2 * 1.0 and its wings are at
    40 + 1.5 and 40 - 1.5.  When the first edge has length 0 it gets no
    segment in [a_pos]: the arrow of edge 4 is arrow 3 and takes the width
    at index 3 mod 2 = 1; its distance is 0.75 * 2 * 3.0 and its wings are
    at 40 + 4.5 and 40 - 4.5. *)
Theorem width_index_follows_the_arrow_index :
  np_arctan2 50 0 = right_angle ->
  np_cos right_angle = 6.123233995736766e-17 ->
  np_sin right_angle = 1 ->
  let dist := (fun ww => 2.0 * ww) <$> two_widths in
  let st := arrow_loop true five_edges in
  let st' := arrow_loop true five_edges_first_degenerate in
  (five_edges !! 4%nat = Some ((40, 0), (40, 50)) /\
   a_pos st !! 4%nat = Some ((40, 37.5), (40, 50)) /\
   dist_to_use (p st) dist 4 = Ok (0.75 * (2.0 * 1.0)) /\
   wing_loop st dist =
     Ok {| vertex1_x :=
             [1.500000000000002; 14.500000000000002; 21.500000000000004;
              34.5; 41.5];
           vertex1_y := [37.5; 37.5; 37.5; 37.5; 37.5];
           vertex2_x :=
             [-1.4999999999999976; 5.5000000000000018; 18.500000000000004;
              25.500000000000004; 38.5];
           vertex2_y := [37.5; 37.5; 37.5; 37.5; 37.5] |}) /\
  (five_edges_first_degenerate !! 4%nat = Some ((40, 0), (40, 50)) /\
   a_pos st' !! 3%nat = Some ((40, 37.5), (40, 50)) /\
   a_pos st' !! 4%nat = None /\
   dist_to_use (p st') dist 3 = Ok (0.75 * (2.0 * 3.0)) /\
   wing_loop st' dist =
     Ok {| vertex1_x :=
             [11.500000000000002; 24.500000000000004; 31.500000000000004;
              44.5];
           vertex1_y := [37.5; 37.5; 37.5; 37.5];
           vertex2_x :=
             [8.5000000000000018; 15.500000000000004; 28.500000000000004;
              35.5];
           vertex2_y := [37.5; 37.5; 37.5; 37.5] |}).
Proof.
  intros Hatan Hcos Hsin. cbv zeta.
  split; (split; [reflexivity|]); repeat split;
    vm_compute; rewrite ?Hatan, ?Hcos, ?Hsin; reflexivity.
Qed.

(** ** The wing vertices (C2) *)

Lemma wing_body_ok st dist w i xa ya tip s dw :
  dist <> [] ->
  a_pos st !! i = Some ((xa, ya), tip) ->
  orthoslope st !! i = Some s ->
  dist !! (i mod length dist) = Some dw ->
  wing_body st dist (Ok w) i =
    Ok {| vertex1_x := vertex1_x w ++ [xa + arrow_width (p st * dw) s];
          vertex2_x := vertex2_x w ++ [xa - arrow_width (p st * dw) s];
          vertex1_y :=
            vertex1_y w ++
              [ya + 1.0 * s * (xa + arrow_width (p st * dw) s - xa)];
          vertex2_y :=
            vertex2_y w ++
              [ya + 1.0 * s * (xa - arrow_width (p st * dw) s - xa)] |}.
Proof.
  intros Hne Ha Hs Hd. unfold wing_body.
  rewrite dist_to_use_cycles by done.
  unfold py_index. rewrite Hd, Hs, Ha. reflexivity.
Qed.

(** The first [n] iterations of the wing loop go through and fill the four
    lists up to index [n]. *)
Lemma wing_loop_prefix st dist n :
  dist <> [] ->
  length (orthoslope st) = length (a_pos st) ->
  (n <= length (a_pos st))%nat ->
  exists w,
    fold_left (wing_body st dist) (seq 0 n) (Ok no_wings) = Ok w /\
    length (vertex1_x w) = n /\ length (vertex2_x w) = n /\
    length (vertex1_y w) = n /\ length (vertex2_y w) = n /\
    forall i, (i < n)%nat -> wings_at st dist w i.
Proof.
  intros Hne Hlen. induction n as [|n IH]; intros Hn.
  - exists no_wings. split; [reflexivity|]. do 4 (split; [reflexivity|]).
    intros j Hj. lia.
  - destruct IH as (w & Hw & L1 & L2 & L3 & L4 & Hat); [lia|].
    destruct (lookup_lt_is_Some_2 (a_pos st) n) as [[[xa ya] tip] Ha]; [lia|].
    destruct (lookup_lt_is_Some_2 (orthoslope st) n) as [s Hs]; [lia|].
    destruct (lookup_lt_is_Some_2 dist (n mod length dist)) as [dw Hd].
    { apply Nat.mod_upper_bound. destruct dist; [done | simpl; lia]. }
    rewrite seq_S, fold_left_app, Hw. cbn [fold_left Nat.add].
    rewrite (wing_body_ok _ _ _ _ _ _ _ _ _ Hne Ha Hs Hd).
    eexists. split; [reflexivity|]. simpl. rewrite !length_app, L1, L2, L3, L4.
    simpl. do 4 (split; [lia|]).
    intros i Hi xa' ya' tip' s' dw' Ha' Hs' Hd'.
    cbn [vertex1_x vertex2_x vertex1_y vertex2_y].
    destruct (decide (i = n)) as [->|Hne'].
    + rewrite Ha in Ha'. rewrite Hs in Hs'. rewrite Hd in Hd'.
      injection Ha' as -> -> ->. injection Hs' as ->. injection Hd' as ->.
      rewrite !list_lookup_middle by done. done.
    + rewrite !lookup_app_l by lia.
      assert (Hin : (i < n)%nat) by lia.
      exact (Hat i Hin xa' ya' tip' s' dw' Ha' Hs' Hd').
Qed.

Lemma wing_loop_ok st dist :
  dist <> [] ->
  length (orthoslope st) = length (a_pos st) ->
  exists w,
    wing_loop st dist = Ok w /\
    length (vertex1_x w) = length (a_pos st) /\
    length (vertex2_x w) = length (a_pos st) /\
    length (vertex1_y w) = length (a_pos st) /\
    length (vertex2_y w) = length (a_pos st) /\
    forall i, (i < length (a_pos st))%nat -> wings_at st dist w i.
Proof.
  intros Hne Hlen. apply (wing_loop_prefix st dist _ Hne Hlen). lia.
Qed.

Lemma dist_to_use_ok p0 dist i d :
  dist_to_use p0 dist i = Ok d ->
  dist <> [] /\ exists dw, dist !! (i mod length dist) = Some dw /\ d = p0 * dw.
Proof.
  intros Hd.
  assert (Hne : dist <> []).
  { intros ->. unfold dist_to_use in Hd. simpl in Hd.
    destruct (Nat.ltb_spec 0 (i + 1)); [discriminate Hd | lia]. }
  split; [exact Hne|].
  rewrite dist_to_use_cycles in Hd by exact Hne. unfold py_index in Hd.
  destruct (dist !! (i mod length dist)) as [dw|]; [|discriminate Hd].
  exists dw. split; [reflexivity|]. by injection Hd.
Qed.

(** What lines 342-348 compute: in triangular mode, for an arrow [i] with
    its distance value [d] (line 338 or 340) and its orthogonal slope, the
    wing loop goes through and the wing abscissas of arrow [i] are the shaft
    end's abscissa plus and minus sqrt(d^2 / (1 + slope)), with the slope
    not squared, or half of sqrt(-d^2 / (1 + slope)) when that quotient is
    negative. *)
Lemma arrow_width_uses_the_unsquared_slope (edge_pos : list segment)
    (lw : list float) (i : nat) (xa ya : float) (tip : point)
    (slope d : float) :
  let st := arrow_loop true edge_pos in
  let dist := (fun ww => 2.0 * ww) <$> lw in
  a_pos st !! i = Some ((xa, ya), tip) ->
  orthoslope st !! i = Some slope ->
  dist_to_use (p st) dist i = Ok d ->
  exists wg,
    wing_loop st dist = Ok wg /\
    let aw :=
      if (d * d) / (1 + slope) <? 0
      then 0.5 * sqrt ((-1) * (d * d) / (1 + slope))
      else sqrt ((d * d) / (1 + slope)) in
    vertex1_x wg !! i = Some (xa + aw) /\
    vertex2_x wg !! i = Some (xa - aw).
Proof.
  cbv zeta. intros Ha Hs Hd.
  destruct (dist_to_use_ok _ _ _ _ Hd) as (Hne & dw & Hdw & ->).
  destruct (wing_loop_ok (arrow_loop true edge_pos)
              ((fun ww => 2.0 * ww) <$> lw) Hne)
    as (wg & Hwg & _ & _ & _ & _ & Hat).
  { rewrite arrow_loop_orthoslope. apply length_fmap. }
  exists wg. split; [exact Hwg|].
  destruct (Hat i (lookup_lt_Some _ _ _ Ha) xa ya tip slope dw Ha Hs Hdw)
    as (H1 & H2 & _).
  split; [exact H1 | exact H2].
Qed.

(** ** The position of the arrowhead along the edge (C6) *)

(** C6, with the values libm has at the right angle.  The vertical edge from
    (0,0) to (0,50) alone gets a triangle moved back by 0.15 * 50 = 7.5, its
    tip at ordinate 42.5.  After an edge of length 0 the same edge is the
    first arrow but [lengths[0]] is the length of the skipped edge: the
    triangle is moved back by 0.15 * 0 and its tip stays at (0, 50). *)
Theorem arrowhead_offset_uses_the_wrong_length
    (cols : option (list (list float))) :
  np_arctan2 50 0 = right_angle ->
  np_cos right_angle = 6.123233995736766e-17 ->
  np_sin right_angle = 1 ->
  arrow_collection true 0.15 [1.0] cols [((0, 0), (0, 50))] =
    Ok (PolyCollection
          [((1.5000000000000016, 30), (-1.499999999999998, 30),
            (-4.592425496802575e-16, 42.5))] "brown" cols) /\
  arrow_collection true 0.15 [1.0] cols
      [((0, 0), (0, 0)); ((0, 0), (0, 50))] =
    Ok (PolyCollection
          [((1.500000000000002, 37.5), (-1.4999999999999976, 37.5),
            (0, 50))] "brown" cols) /\
  lengths (arrow_loop true [((0, 0), (0, 0)); ((0, 0), (0, 50))]) = [0; 50] /\
  length (a_pos (arrow_loop true [((0, 0), (0, 0)); ((0, 0), (0, 50))])) = 1%nat.
Proof.
  intros Hatan Hcos Hsin. repeat split.
  - vm_compute. rewrite Hatan, Hcos, Hsin. reflexivity.
  - vm_compute. rewrite Hatan, Hcos, Hsin. reflexivity.
Qed.

(** ** The early exits (C8, C10) *)

Lemma edge_positions_ok (pos : gmap node point) (el : list (node * node)) :
  (forall e, e ∈ el -> is_Some (pos !! e.1) /\ is_Some (pos !! e.2)) ->
  exists edge_pos,
    edge_positions pos el = Ok edge_pos /\ length edge_pos = length el.
Proof.
  induction el as [|e el IH]; intros Hpos.
  - exists []. done.
  - destruct (Hpos e) as [[src Hsrc] [dst Hdst]]; [left|].
    destruct IH as (tl & Htl & Hlen).
    { intros e' He'. apply Hpos. by right. }
    exists ((src, dst) :: tl). simpl. unfold pos_lookup.
    rewrite Hsrc, Hdst, Htl. simpl. by rewrite Hlen.
Qed.

(** C8, as the code has it: when there is an edge to draw and every end
    point has a position, a colour list whose length is neither 1 nor the
    number of edges makes the function raise [ValueError] with the
    single-colour-or-m-colours message, and the axes are left as they
    were. *)
Theorem mismatched_colour_list_raises (G : Graph) (pos : gmap node point)
    (a : draw_args) (ax : axes) (l : list color_item) :
  let el := default (G_edges G) (edgelist a) in
  el <> [] ->
  (forall e, e ∈ el -> is_Some (pos !! e.1) /\ is_Some (pos !! e.2)) ->
  edge_color a = EList l ->
  length l <> 1%nat ->
  length l <> length el ->
  draw_networkx_edges G pos a ax = (Raise (ValueError msg_single_or_m), ax).
Proof.
  cbv zeta. intros Hne Hpos Hcol H1 Hm. unfold draw_networkx_edges.
  destruct (default (G_edges G) (edgelist a)) as [|e el] eqn:Hel; [done|].
  destruct (edge_positions_ok pos (e :: el) Hpos) as (edge_pos & -> & Hlen).
  unfold edge_colors_of. rewrite Hcol, Hlen.
  destruct (Nat.eqb_spec (length l) (length (e :: el))); [done|].
  destruct (Nat.eqb_spec (length l) 1); done.
Qed.

(** C10: with an empty [edgelist], or with no [edgelist] and a graph without
    edges, the function returns [None] and leaves the axes as they were. *)
Theorem no_edges_returns_none (G : Graph) (pos : gmap node point)
    (a : draw_args) (ax : axes) :
  (edgelist a = Some [] ->
     draw_networkx_edges G pos a ax = (Ok None, ax)) /\
  (edgelist a = None -> G_edges G = [] ->
     draw_networkx_edges G pos a ax = (Ok None, ax)).
Proof.
  unfold draw_networkx_edges. split.
  - intros ->. reflexivity.
  - intros -> ->. reflexivity.
Qed.

(** ** Triangles when the lists are aligned, and when they are not *)

Lemma shaft_theta arrowheads e :
  (shaft arrowheads e).2 =
    if horizontal e then None else Some (edge_angle e).
Proof.
  destruct e as [[x1 y1] [x2 y2]]. unfold shaft, horizontal, edge_angle.
  simpl. destruct (y2 - y1 =? 0); [reflexivity|].
  destruct arrowheads; reflexivity.
Qed.

Lemma omap_cons_length {A B} (f : A -> option B) (x : A) (l : list A) :
  length (omap f (x :: l)) =
    (length (option_list (f x)) + length (omap f l))%nat.
Proof. simpl. destruct (f x); reflexivity. Qed.

Lemma omap_length_le {A B} (f : A -> option B) (l : list A) :
  (length (omap f l) <= length l)%nat.
Proof.
  induction l as [|x l IH]; [done|].
  rewrite omap_cons_length. destruct (f x); simpl; lia.
Qed.

Lemma thetas_length_le arrowheads es :
  (length (thetas (arrow_loop arrowheads es)) <=
   length (a_pos (arrow_loop arrowheads es)))%nat.
Proof.
  rewrite arrow_loop_thetas, arrow_loop_a_pos, length_fmap.
  apply omap_length_le.
Qed.

(** One horizontal edge of nonzero length leaves [thetas] shorter than
    [a_pos]. *)
Lemma thetas_short arrowheads es e :
  e ∈ es -> degenerate e = false -> horizontal e = true ->
  (length (thetas (arrow_loop arrowheads es)) <
   length (a_pos (arrow_loop arrowheads es)))%nat.
Proof.
  intros Hin Hd Hh.
  rewrite arrow_loop_thetas, arrow_loop_a_pos, length_fmap.
  assert (Hlive : In e (live es)).
  { apply filter_In. split; [by apply list_elem_of_In | by rewrite Hd]. }
  induction (live es) as [|e' l IH]; [done|].
  rewrite omap_cons_length, shaft_theta. cbn [length].
  pose proof (omap_length_le (fun e0 => (shaft arrowheads e0).2) l) as Hle.
  destruct Hlive as [->|Hl].
  - rewrite Hh. simpl. lia.
  - specialize (IH Hl). destruct (horizontal e'); simpl; lia.
Qed.

Lemma thetas_aligned arrowheads es :
  (forall e, e ∈ es -> degenerate e = false /\ horizontal e = false) ->
  a_pos (arrow_loop arrowheads es) = (fun e => (shaft arrowheads e).1) <$> es /\
  thetas (arrow_loop arrowheads es) = edge_angle <$> es /\
  lengths (arrow_loop arrowheads es) = edge_length <$> es.
Proof.
  intros Hall.
  rewrite arrow_loop_thetas, arrow_loop_a_pos, arrow_loop_lengths.
  assert (Hlive : live es = es).
  { induction es as [|e es IH]; simpl; [done|].
    destruct (Hall e) as [-> _]; [left|]. simpl. f_equal.
    apply IH. intros e' He'. apply Hall. by right. }
  rewrite Hlive. repeat split.
  induction es as [|e es IH]; simpl; [done|].
  rewrite shaft_theta. destruct (Hall e) as [_ ->]; [left|]. simpl. f_equal.
  apply IH.
  - intros e' He'. apply Hall. by right.
  - simpl in Hlive. destruct (Hall e) as [Hd _]; [left|].
    rewrite Hd in Hlive. simpl in Hlive. by injection Hlive.
Qed.

Lemma a_vert_raises apos st w i e :
  a_vert apos st w i = Raise e -> e = IndexError.
Proof.
  unfold a_vert, py_index.
  destruct (vertex1_x w !! i); simpl; [|congruence].
  destruct (lengths st !! i); simpl; [|congruence].
  destruct (thetas st !! i); simpl; [|congruence].
  destruct (vertex1_y w !! i); simpl; [|congruence].
  destruct (vertex2_x w !! i); simpl; [|congruence].
  destruct (vertex2_y w !! i); simpl; [|congruence].
  destruct (a_pos st !! i) as [[? [? ?]]|]; simpl; [|congruence].
  discriminate.
Qed.

Lemma a_verts_from_raises apos st w idxs e :
  a_verts_from apos st w idxs = Raise e -> e = IndexError.
Proof.
  induction idxs as [|i idxs IH]; simpl; [discriminate|].
  destruct (a_vert apos st w i) eqn:Hi; simpl.
  - destruct (a_verts_from apos st w idxs); simpl; [discriminate|].
    intros [= <-]. by apply IH.
  - intros [= <-]. by apply a_vert_raises in Hi.
Qed.

Lemma a_verts_from_ok apos st w idxs ts :
  a_verts_from apos st w idxs = Ok ts ->
  Forall2 (fun i t => a_vert apos st w i = Ok t) idxs ts.
Proof.
  revert ts. induction idxs as [|i idxs IH]; simpl; intros ts.
  - intros [= <-]. constructor.
  - destruct (a_vert apos st w i) eqn:Hi; simpl; [|discriminate].
    destruct (a_verts_from apos st w idxs); simpl; [|discriminate].
    intros [= <-]. constructor; [done | by apply IH].
Qed.

Lemma a_verts_from_total apos st w idxs :
  (forall i, i ∈ idxs -> exists t, a_vert apos st w i = Ok t) ->
  exists ts, a_verts_from apos st w idxs = Ok ts.
Proof.
  induction idxs as [|i idxs IH]; simpl; intros Hall; [by eexists|].
  destruct (Hall i) as [t ->]; [left|].
  destruct IH as [ts ->]; [intros j Hj; apply Hall; by right|].
  by eexists.
Qed.

Lemma a_vert_needs_theta apos st w i t :
  a_vert apos st w i = Ok t -> is_Some (thetas st !! i).
Proof.
  unfold a_vert, py_index.
  destruct (vertex1_x w !! i); simpl; [|discriminate].
  destruct (lengths st !! i); simpl; [|discriminate].
  destruct (thetas st !! i); simpl; [by eexists | discriminate].
Qed.

(** In triangular mode one horizontal edge of nonzero length makes the
    construction of the triangles raise [IndexError], whatever the other
    edges are. *)
Lemma horizontal_edge_breaks_triangles apos lw cols es e :
  lw <> [] ->
  e ∈ es -> degenerate e = false -> horizontal e = true ->
  arrow_collection true apos lw cols es = Raise IndexError.
Proof.
  intros Hlw Hin Hd Hh. unfold arrow_collection.
  destruct (wing_loop_ok (arrow_loop true es) ((fun ww => 2.0 * ww) <$> lw))
    as (w & -> & _).
  { destruct lw; done. }
  { rewrite arrow_loop_orthoslope. apply length_fmap. }
  simpl. unfold a_verts.
  pose proof (thetas_short true es e Hin Hd Hh) as Hshort.
  destruct (a_verts_from apos (arrow_loop true es) w _) as [ts|err] eqn:Hts;
    simpl.
  - apply a_verts_from_ok in Hts.
    destruct (Forall2_lookup_l _ _ _ (length (thetas (arrow_loop true es)))
                (length (thetas (arrow_loop true es))) Hts) as (t & _ & Ht).
    { apply lookup_seq_lt. exact Hshort. }
    apply a_vert_needs_theta in Ht. apply lookup_lt_is_Some in Ht. lia.
  - by rewrite (a_verts_from_raises _ _ _ _ _ Hts).
Qed.

Lemma shaft_tip e : (shaft true e).1.2 = e.2.
Proof.
  destruct e as [[x1 y1] [x2 y2]]. unfold shaft.
  destruct (y2 - y1 =? 0); reflexivity.
Qed.

(** In triangular mode, when no edge has length 0 and none is horizontal,
    every edge gets one triangle: two wing vertices and the edge's tip, all
    three moved back along the edge's angle by [apos_on_edge] times the
    edge's length. *)
Lemma aligned_edges_get_triangles apos lw cols es :
  lw <> [] ->
  (forall e, e ∈ es -> degenerate e = false /\ horizontal e = false) ->
  exists verts,
    arrow_collection true apos lw cols es =
      Ok (PolyCollection verts "brown" cols) /\
    length verts = length es /\
    forall i e, es !! i = Some e ->
      exists wing1 wing2,
        verts !! i =
          Some (moved_back (apos * edge_length e) (edge_angle e) wing1,
                moved_back (apos * edge_length e) (edge_angle e) wing2,
                moved_back (apos * edge_length e) (edge_angle e) e.2).
Proof.
  intros Hlw Hall. unfold arrow_collection.
  destruct (thetas_aligned true es Hall) as (Hapos & Hthetas & Hlengths).
  destruct (wing_loop_ok (arrow_loop true es) ((fun ww => 2.0 * ww) <$> lw))
    as (w & -> & L1 & L2 & L3 & L4 & _).
  { destruct lw; done. }
  { rewrite arrow_loop_orthoslope. apply length_fmap. }
  simpl. unfold a_verts.
  assert (Hn : length (a_pos (arrow_loop true es)) = length es).
  { rewrite Hapos. apply length_fmap. }
  rewrite Hn in *.
  destruct (a_verts_from_total apos (arrow_loop true es) w
              (seq 0 (length es))) as [ts Hts].
  { intros i Hi. apply elem_of_seq in Hi.
    destruct (lookup_lt_is_Some_2 es i) as [e He]; [lia|].
    destruct (lookup_lt_is_Some_2 (vertex1_x w) i) as [v1x H1]; [lia|].
    destruct (lookup_lt_is_Some_2 (vertex2_x w) i) as [v2x H2]; [lia|].
    destruct (lookup_lt_is_Some_2 (vertex1_y w) i) as [v1y H3]; [lia|].
    destruct (lookup_lt_is_Some_2 (vertex2_y w) i) as [v2y H4]; [lia|].
    unfold a_vert, py_index.
    rewrite H1, H2, H3, H4, Hapos, Hthetas, Hlengths, !list_lookup_fmap, He.
    simpl. destruct (shaft true e).1 as [? [? ?]]. by eexists. }
  rewrite Hts. simpl. exists ts.
  apply a_verts_from_ok in Hts.
  split; [reflexivity|]. split.
  { rewrite <- (Forall2_length _ _ _ Hts). apply length_seq. }
  intros i e He.
  destruct (Forall2_lookup_l _ _ _ i i Hts) as (t & Ht & Hvert).
  { apply lookup_seq_lt. by apply lookup_lt_Some in He. }
  rewrite Ht. revert Hvert. unfold a_vert, py_index.
  assert (Hi : (i < length es)%nat) by (by apply lookup_lt_Some in He).
  destruct (lookup_lt_is_Some_2 (vertex1_x w) i) as [v1x H1]; [lia|].
  destruct (lookup_lt_is_Some_2 (vertex2_x w) i) as [v2x H2]; [lia|].
  destruct (lookup_lt_is_Some_2 (vertex1_y w) i) as [v1y H3]; [lia|].
  destruct (lookup_lt_is_Some_2 (vertex2_y w) i) as [v2y H4]; [lia|].
  rewrite H1, H2, H3, H4, Hapos, Hthetas, Hlengths, !list_lookup_fmap, He.
  simpl. pose proof (shaft_tip e) as Htip.
  destruct (shaft true e).1 as [? [x2 y2]]. simpl in Htip.
  simpl. intros [= <-]. exists (v1x, v1y), (v2x, v2y).
  rewrite <- Htip. reflexivity.
Qed.

(** ** The call as a whole *)

Lemma alter_snoc {A} (f : A -> A) (l : list A) (x : A) :
  alter f (length l) (l ++ [x]) = l ++ [f x].
Proof. induction l as [|y l IH]; simpl; [done | by f_equal]. Qed.

(** Mutating the collection that was just added, its geometry apart. *)
Lemma mutate_added f c ax :
  geom (f c) = geom c ->
  mutate (length (collections ax)) f (add_collection c ax) =
    add_collection (f c) ax.
Proof.
  intros Hg. unfold mutate, add_collection. simpl.
  by rewrite alter_snoc, Hg.
Qed.

Lemma view_corners_total e edge_pos :
  exists corners, view_corners (e :: edge_pos) = Ok corners.
Proof. unfold view_corners. simpl. by eexists. Qed.

(** The call, once the positions and the colours are there. *)
Lemma draw_after_colours G pos a ax e0 el edge_pos ec :
  default (G_edges G) (edgelist a) = e0 :: el ->
  edge_positions pos (e0 :: el) = Ok edge_pos ->
  edge_colors_of (edge_color a) (alpha a) (length edge_pos) = Ok ec ->
  draw_networkx_edges G pos a ax =
    if cmap_rejected a ec then
      (Raise AssertionError,
       add_collection (edge_line_with_alpha a edge_pos ec) ax)
    else
      let ax1 := add_collection (drawn_edge_line a edge_pos ec) ax in
      match arrows_added G a edge_pos ec ax1 with
      | Raise e => (Raise e, ax1)
      | Ok ax2 =>
          match view_corners edge_pos with
          | Raise e => (Raise e, ax2)
          | Ok corners =>
              (Ok (Some (length (collections ax))),
               autoscale_view (update_datalim corners ax2))
          end
      end.
Proof.
  intros Hel Hpos Hcol. unfold draw_networkx_edges.
  rewrite Hel, Hpos, Hcol. cbv zeta.
  fold (edge_line a edge_pos ec).
  assert (Halpha :
    match alpha a with
    | Some al =>
        mutate (length (collections ax)) (set_alpha al)
          (add_collection (edge_line a edge_pos ec) ax)
    | None => add_collection (edge_line a edge_pos ec) ax
    end = add_collection (edge_line_with_alpha a edge_pos ec) ax).
  { unfold edge_line_with_alpha. destruct (alpha a); [|done].
    by apply mutate_added. }
  rewrite Halpha. unfold cmap_rejected, drawn_edge_line, arrows_added.
  destruct ec as [cs|].
  - reflexivity.
  - destruct (edge_cmap a) as [[name|]|]; [|reflexivity|];
      rewrite mutate_added by done; reflexivity.
Qed.

(** *** Positions *)

Lemma edge_positions_lookup pos el edge_pos :
  edge_positions pos el = Ok edge_pos ->
  length edge_pos = length el /\
  forall i u v, el !! i = Some (u, v) ->
    exists src dst,
      pos !! u = Some src /\ pos !! v = Some dst /\
      edge_pos !! i = Some (src, dst).
Proof.
  revert edge_pos. induction el as [|[u0 v0] el IH]; intros edge_pos; simpl.
  - intros [= <-]. split; [done|]. intros i u v Hi. done.
  - unfold pos_lookup.
    destruct (pos !! u0) as [src|] eqn:Hu; simpl; [|discriminate].
    destruct (pos !! v0) as [dst|] eqn:Hv; simpl; [|discriminate].
    destruct (edge_positions pos el) as [tl|] eqn:Htl; simpl; [|discriminate].
    intros [= <-]. destruct (IH tl eq_refl) as [Hlen Hall].
    split; [simpl; by rewrite Hlen|].
    intros [|i] u v Hi; simpl in *.
    + injection Hi as -> ->. by exists src, dst.
    + by apply Hall.
Qed.

Lemma edge_positions_raises pos el e :
  edge_positions pos el = Raise e ->
  exists n, e = KeyError n /\ pos !! n = None /\
    exists ed, ed ∈ el /\ (n = ed.1 \/ n = ed.2).
Proof.
  induction el as [|[u0 v0] el IH]; simpl; [discriminate|].
  unfold pos_lookup.
  destruct (pos !! u0) as [src|] eqn:Hu; simpl.
  - destruct (pos !! v0) as [dst|] eqn:Hv; simpl.
    + destruct (edge_positions pos el) as [tl|]; simpl; [discriminate|].
      intros [= <-]. destruct (IH eq_refl) as (n & Hn & Hnone & ed & Hed & Hor).
      exists n. repeat split; [done..|]. exists ed. split; [by right | done].
    + intros [= <-]. exists v0. repeat split; [done|].
      exists (u0, v0). split; [left | by right].
  - intros [= <-]. exists u0. repeat split; [done|].
    exists (u0, v0). split; [left | by left].
Qed.

(** X1: when the positions are found, [edge_pos] has one segment for every
    edge of the edge list, in the same order, made of the positions of the
    edge's two nodes. *)
Theorem edge_positions_follow_the_edge_list (pos : gmap node point)
    (el : list (node * node)) (edge_pos : list segment) :
  edge_positions pos el = Ok edge_pos ->
  length edge_pos = length el /\
  forall i u v, el !! i = Some (u, v) ->
    exists src dst,
      pos !! u = Some src /\ pos !! v = Some dst /\
      edge_pos !! i = Some (src, dst).
Proof. apply edge_positions_lookup. Qed.

(** X2: when an edge of the edge list has an end point without a position,
    the call raises [KeyError] for a node of the edge list that has no
    position, and the axes are left as they were. *)
Theorem missing_position_raises_key_error (G : Graph)
    (pos : gmap node point) (a : draw_args) (ax : axes) (u v : node) :
  (u, v) ∈ default (G_edges G) (edgelist a) ->
  pos !! u = None \/ pos !! v = None ->
  exists n,
    draw_networkx_edges G pos a ax = (Raise (KeyError n), ax) /\
    pos !! n = None /\
    exists ed, ed ∈ default (G_edges G) (edgelist a) /\
      (n = ed.1 \/ n = ed.2).
Proof.
  intros Hin Hnone. unfold draw_networkx_edges.
  destruct (default (G_edges G) (edgelist a)) as [|e0 el] eqn:Hel.
  { by apply elem_of_nil in Hin. }
  destruct (edge_positions pos (e0 :: el)) as [edge_pos|e] eqn:Hpos.
  - exfalso. apply list_elem_of_lookup in Hin as [i Hi].
    destruct (edge_positions_lookup _ _ _ Hpos) as [_ Hall].
    destruct (Hall i u v Hi) as (src & dst & Hu & Hv & _).
    destruct Hnone; congruence.
  - destruct (edge_positions_raises _ _ _ Hpos) as (n & -> & Hn & Hed).
    exists n. done.
Qed.

(** *** Colours *)

Lemma numbers_go_to_the_colormap l alpha0 :
  l <> [] ->
  (forall c, c ∈ l -> exists x, c = CNumber x) ->
  edge_colors_of (EList l) alpha0 (length l) = Ok None.
Proof.
  intros Hne Hnum. unfold edge_colors_of. rewrite Nat.eqb_refl.
  assert (H1 : forallb is_string_like l = false).
  { destruct l as [|c l]; [done|].
    destruct (Hnum c) as [x ->]; [left|]. reflexivity. }
  assert (H2 : forallb (fun c => negb (is_string_like c)) l = true).
  { apply forallb_forall. intros c Hc. apply list_elem_of_In in Hc.
    destruct (Hnum c Hc) as [x ->]. reflexivity. }
  assert (H3 : forallb is_rgb_or_rgba l = false).
  { destruct l as [|c l]; [done|].
    destruct (Hnum c) as [x ->]; [left|]. reflexivity. }
  rewrite H1, H2, H3. reflexivity.
Qed.

Lemma mixed_colours_rejected l alpha0 s c :
  CName s ∈ l -> c ∈ l -> is_string_like c = false ->
  edge_colors_of (EList l) alpha0 (length l) =
    Raise (ValueError msg_names_or_numbers).
Proof.
  intros Hs Hc Hnot. unfold edge_colors_of. rewrite Nat.eqb_refl.
  assert (H1 : forallb is_string_like l = false).
  { apply not_true_is_false. intros H.
    rewrite forallb_forall in H. apply list_elem_of_In in Hc.
    rewrite (H c Hc) in Hnot. discriminate. }
  assert (H2 : forallb (fun c => negb (is_string_like c)) l = false).
  { apply not_true_is_false. intros H.
    rewrite forallb_forall in H. apply list_elem_of_In in Hs.
    specialize (H _ Hs). discriminate. }
  rewrite H1, H2. reflexivity.
Qed.

(** X3: a colour list as long as the edge list that holds both a colour
    name and something that is not a string makes the call raise
    [ValueError] with the names-or-numbers message, before anything is
    drawn. *)
Theorem mixed_colour_list_raises (G : Graph) (pos : gmap node point)
    (a : draw_args) (ax : axes) (l : list color_item) (s : string)
    (c : color_item) :
  let el := default (G_edges G) (edgelist a) in
  el <> [] ->
  (forall e, e ∈ el -> is_Some (pos !! e.1) /\ is_Some (pos !! e.2)) ->
  edge_color a = EList l ->
  length l = length el ->
  CName s ∈ l -> c ∈ l -> is_string_like c = false ->
  draw_networkx_edges G pos a ax =
    (Raise (ValueError msg_names_or_numbers), ax).
Proof.
  cbv zeta. intros Hne Hpos Hcol Hlen Hs Hc Hnot.
  unfold draw_networkx_edges.
  destruct (default (G_edges G) (edgelist a)) as [|e0 el] eqn:Hel; [done|].
  destruct (edge_positions_ok pos (e0 :: el) Hpos) as (edge_pos & -> & Hl).
  rewrite Hcol, Hl, <- Hlen.
  by rewrite (mixed_colours_rejected l (alpha a) s c).
Qed.

(** *** What the arrow stage can raise *)

Lemma dist_to_use_raises p0 dist i e :
  dist_to_use p0 dist i = Raise e -> e = ZeroDivisionError \/ e = IndexError.
Proof.
  unfold dist_to_use, py_index.
  destruct (Nat.ltb (length dist) (i + 1)).
  - destruct (length dist); [intros [= <-]; by left|].
    destruct (dist !! _); simpl; [discriminate | intros [= <-]; by right].
  - destruct (dist !! i); simpl; [discriminate | intros [= <-]; by right].
Qed.

Lemma wing_body_raises st dist acc i e :
  wing_body st dist acc i = Raise e ->
  acc = Raise e \/ e = ZeroDivisionError \/ e = IndexError.
Proof.
  unfold wing_body. destruct acc as [w|e0]; simpl; [|intros [= <-]; by left].
  destruct (dist_to_use (p st) dist i) as [d|e1] eqn:Hd; simpl.
  - unfold py_index.
    destruct (orthoslope st !! i); simpl; [|intros [= <-]; right; by right].
    destruct (a_pos st !! i) as [[[xa ya] tip]|]; simpl;
      [discriminate | intros [= <-]; right; by right].
  - intros [= <-]. right. by apply dist_to_use_raises in Hd.
Qed.

Lemma fold_wing_body_raises st dist idxs : forall acc e,
  fold_left (wing_body st dist) idxs acc = Raise e ->
  acc = Raise e \/ e = ZeroDivisionError \/ e = IndexError.
Proof.
  induction idxs as [|i idxs IH]; intros acc e; simpl; [by left|].
  intros H. destruct (IH _ _ H) as [Hb|Hk]; [|by right].
  by apply wing_body_raises in Hb.
Qed.

Lemma arrow_collection_raises arrowheads apos lw cols edge_pos e :
  arrow_collection arrowheads apos lw cols edge_pos = Raise e ->
  arrowheads = true /\ (e = ZeroDivisionError \/ e = IndexError).
Proof.
  unfold arrow_collection. destruct arrowheads; [|discriminate].
  intros H. split; [done|].
  destruct (wing_loop _ _) as [w|e1] eqn:Hw; simpl in H.
  - destruct (a_verts apos _ w) as [ts|e2] eqn:Hts; simpl in H;
      [discriminate|].
    injection H as <-. right. by apply a_verts_from_raises in Hts.
  - injection H as <-.
    destruct (fold_wing_body_raises _ _ _ _ _ Hw) as [?|?]; [discriminate|done].
Qed.

Lemma arrows_added_raises G a edge_pos ec ax1 e :
  arrows_added G a edge_pos ec ax1 = Raise e ->
  is_directed G = true /\ arrows a = true /\ arrowheads a = true /\
  (e = ZeroDivisionError \/ e = IndexError).
Proof.
  unfold arrows_added.
  destruct (is_directed G); simpl; [|discriminate].
  destruct (arrows a); simpl; [|discriminate].
  destruct (arrow_collection _ _ _ _ _) as [c|e1] eqn:Hc; simpl;
    [discriminate|].
  intros [= <-]. by apply arrow_collection_raises in Hc as [? ?].
Qed.

Lemma arrows_added_ok G a edge_pos ec ax1 ax2 :
  arrows_added G a edge_pos ec ax1 = Ok ax2 ->
  (is_directed G && arrows a = false /\ ax2 = ax1) \/
  (is_directed G && arrows a = true /\
   exists c,
     arrow_collection (arrowheads a) (apos_on_edge a)
       (line_widths (width a)) ec edge_pos = Ok c /\
     ax2 = add_collection (set_label (label a) (set_zorder 1 c)) ax1).
Proof.
  unfold arrows_added. destruct (is_directed G && arrows a).
  - destruct (arrow_collection _ _ _ _ _) as [c|e1]; simpl; [|discriminate].
    intros [= <-]. right. split; [done|]. by exists c.
  - intros [= <-]. by left.
Qed.

(** The ways the call can raise. *)
Lemma draw_raise_cases (G : Graph) (pos : gmap node point)
    (a : draw_args) (ax ax' : axes) (e : exn) :
  draw_networkx_edges G pos a ax = (Raise e, ax') ->
  ax' = ax \/
  exists edge_pos ec,
    edge_positions pos (default (G_edges G) (edgelist a)) = Ok edge_pos /\
    edge_colors_of (edge_color a) (alpha a) (length edge_pos) = Ok ec /\
    ((e = AssertionError /\ ec = None /\
      edge_cmap a = Some NotAColormap /\
      ax' = add_collection (edge_line_with_alpha a edge_pos ec) ax) \/
     ((e = ZeroDivisionError \/ e = IndexError) /\
      is_directed G = true /\ arrows a = true /\ arrowheads a = true /\
      ax' = add_collection (drawn_edge_line a edge_pos ec) ax)).
Proof.
  intros H.
  destruct (default (G_edges G) (edgelist a)) as [|e0 el] eqn:Hel.
  { unfold draw_networkx_edges in H. rewrite Hel in H. discriminate. }
  destruct (edge_positions pos (e0 :: el)) as [edge_pos|e1] eqn:Hpos.
  2:{ unfold draw_networkx_edges in H. rewrite Hel, Hpos in H.
      injection H as _ <-. by left. }
  destruct (edge_colors_of (edge_color a) (alpha a) (length edge_pos))
    as [ec|e1] eqn:Hcol.
  2:{ unfold draw_networkx_edges in H. rewrite Hel, Hpos, Hcol in H.
      injection H as _ <-. by left. }
  rewrite (draw_after_colours _ _ _ _ _ _ _ _ Hel Hpos Hcol) in H.
  right. exists edge_pos, ec. split; [done|]. split; [done|].
  destruct (cmap_rejected a ec) eqn:Hrej.
  - injection H as <- <-. left. unfold cmap_rejected in Hrej.
    destruct ec; [discriminate|].
    destruct (edge_cmap a) as [[?|]|]; try discriminate. done.
  - cbv zeta in H.
    destruct (arrows_added G a edge_pos ec _) as [ax2|e1] eqn:Harr.
    + destruct edge_pos as [|s0 edge_pos].
      { apply edge_positions_lookup in Hpos as [Hlen _]. discriminate. }
      destruct (view_corners_total s0 edge_pos) as [corners Hc].
      rewrite Hc in H. discriminate.
    + injection H as <- <-. right.
      apply arrows_added_raises in Harr as (? & ? & ? & ?). done.
Qed.

(** The ways the call can return. *)
Lemma draw_ok_cases G pos a ax ax' r :
  draw_networkx_edges G pos a ax = (Ok r, ax') ->
  (r = None /\ default (G_edges G) (edgelist a) = [] /\ ax' = ax) \/
  exists edge_pos ec ax2 corners,
    default (G_edges G) (edgelist a) <> [] /\
    edge_positions pos (default (G_edges G) (edgelist a)) = Ok edge_pos /\
    edge_colors_of (edge_color a) (alpha a) (length edge_pos) = Ok ec /\
    arrows_added G a edge_pos ec
      (add_collection (drawn_edge_line a edge_pos ec) ax) = Ok ax2 /\
    view_corners edge_pos = Ok corners /\
    r = Some (length (collections ax)) /\
    ax' = autoscale_view (update_datalim corners ax2).
Proof.
  intros H.
  destruct (default (G_edges G) (edgelist a)) as [|e0 el] eqn:Hel.
  { unfold draw_networkx_edges in H. rewrite Hel in H.
    injection H as <- <-. by left. }
  destruct (edge_positions pos (e0 :: el)) as [edge_pos|e1] eqn:Hpos.
  2:{ unfold draw_networkx_edges in H. rewrite Hel, Hpos in H. discriminate. }
  destruct (edge_colors_of (edge_color a) (alpha a) (length edge_pos))
    as [ec|e1] eqn:Hcol.
  2:{ unfold draw_networkx_edges in H. rewrite Hel, Hpos, Hcol in H.
      discriminate. }
  rewrite (draw_after_colours _ _ _ _ _ _ _ _ Hel Hpos Hcol) in H.
  destruct (cmap_rejected a ec); [discriminate|]. cbv zeta in H.
  destruct (arrows_added G a edge_pos ec _) as [ax2|e1] eqn:Harr;
    [|discriminate].
  destruct (view_corners edge_pos) as [corners|e1] eqn:Hc; [|discriminate].
  injection H as <- <-. right. exists edge_pos, ec, ax2, corners. done.
Qed.

Lemma drawn_edge_line_attributes a edge_pos ec :
  geom (drawn_edge_line a edge_pos ec) = Segments edge_pos /\
  colors (drawn_edge_line a edge_pos ec) = ec /\
  linewidths (drawn_edge_line a edge_pos ec) = Some (line_widths (width a)) /\
  linestyle (drawn_edge_line a edge_pos ec) = Some (style a) /\
  zorder (drawn_edge_line a edge_pos ec) = Some 1%Z /\
  coll_label (drawn_edge_line a edge_pos ec) = label a /\
  coll_alpha (drawn_edge_line a edge_pos ec) = alpha a.
Proof.
  unfold drawn_edge_line, edge_line_with_alpha.
  destruct ec, (alpha a); repeat split; reflexivity.
Qed.

Lemma arrow_collection_ok_shape arrowheads apos lw cols edge_pos c :
  arrow_collection arrowheads apos lw cols edge_pos = Ok c ->
  colors c = cols /\ zorder c = None /\
  (arrowheads = false ->
     geom c = Segments (a_pos (arrow_loop false edge_pos)) /\
     linewidths c = Some ((fun ww => 10.0 * ww) <$> lw)) /\
  (arrowheads = true ->
     exists verts,
       geom c = Polygons verts /\ outline c = Some "brown" /\
       length verts = length (a_pos (arrow_loop true edge_pos))).
Proof.
  unfold arrow_collection. destruct arrowheads.
  - destruct (wing_loop _ _) as [w|]; simpl; [|discriminate].
    destruct (a_verts apos _ w) as [ts|] eqn:Hts; simpl; [|discriminate].
    intros [= <-]. split; [done|]. split; [done|].
    split; [discriminate|]. intros _.
    exists ts. split; [done|]. split; [done|].
    apply a_verts_from_ok, Forall2_length in Hts.
    by rewrite <- Hts, length_seq.
  - intros [= <-]. split; [done|]. split; [done|].
    split; [done | discriminate].
Qed.

(** X4: a call that raises calls neither [update_datalim] nor
    [autoscale_view].  Either it leaves the axes as they were, or it has
    added the edge line and nothing else: the axes hold one more
    collection, the segments of the edge list, and their data limits got
    that collection's limits from [add_collection]. *)
Theorem raising_call_draws_at_most_the_edge_line (G : Graph)
    (pos : gmap node point) (a : draw_args) (ax ax' : axes) (e : exn) :
  draw_networkx_edges G pos a ax = (Raise e, ax') ->
  autoscale_view_calls ax' = autoscale_view_calls ax /\
  (ax' = ax \/
   exists c edge_pos,
     edge_positions pos (default (G_edges G) (edgelist a)) = Ok edge_pos /\
     geom c = Segments edge_pos /\
     collections ax' = collections ax ++ [c] /\
     datalim ax' = datalim ax ++ [Autolim (Segments edge_pos)]).
Proof.
  intros H. destruct (draw_raise_cases _ _ _ _ _ _ H) as
    [->|(edge_pos & ec & Hpos & _ & [(_ & -> & _ & ->)|(_ & _ & _ & _ & ->)])].
  - split; [done|]. by left.
  - split; [done|]. right.
    exists (edge_line_with_alpha a edge_pos None), edge_pos.
    assert (Hg : geom (edge_line_with_alpha a edge_pos None) =
                 Segments edge_pos).
    { unfold edge_line_with_alpha. by destruct (alpha a). }
    split; [done|]. split; [done|]. simpl. by rewrite Hg.
  - split; [done|]. right.
    exists (drawn_edge_line a edge_pos ec), edge_pos.
    destruct (drawn_edge_line_attributes a edge_pos ec) as (Hg & _).
    split; [done|]. split; [done|]. simpl. by rewrite Hg.
Qed.


(** X6: on a directed graph with [arrows] the returning call adds two
    collections, the edge line and then the arrow collection, which has the
    colours of the edge line, the label and z-order 1: in rectangular mode
    the segments of [a_pos] with ten times the widths, in triangular mode
    one brown-edged triangle for every segment of [a_pos].  Otherwise it
    adds the edge line alone. *)
Theorem returning_call_adds_edge_line_and_arrows (G : Graph)
    (pos : gmap node point) (a : draw_args) (ax ax' : axes) (h : nat) :
  draw_networkx_edges G pos a ax = (Ok (Some h), ax') ->
  exists edge_pos line,
    edge_positions pos (default (G_edges G) (edgelist a)) = Ok edge_pos /\
    geom line = Segments edge_pos /\
    ((is_directed G && arrows a = false /\
      collections ax' = collections ax ++ [line]) \/
     (is_directed G && arrows a = true /\
      exists c,
        collections ax' = collections ax ++ [line; c] /\
        colors c = colors line /\
        zorder c = Some 1%Z /\
        coll_label c = label a /\
        (arrowheads a = false ->
           geom c = Segments (a_pos (arrow_loop false edge_pos)) /\
           linewidths c =
             Some ((fun ww => 10.0 * ww) <$> line_widths (width a))) /\
        (arrowheads a = true ->
           exists verts,
             geom c = Polygons verts /\ outline c = Some "brown" /\
             length verts = length (a_pos (arrow_loop true edge_pos))))).
Proof.
  intros H. destruct (draw_ok_cases _ _ _ _ _ _ H) as
    [(? & _)|(edge_pos & ec & ax2 & corners & Hne & Hpos & Hcol & Harr & Hc & _ & ->)];
    [discriminate|].
  destruct (drawn_edge_line_attributes a edge_pos ec) as (Hg & Hcols & _).
  exists edge_pos, (drawn_edge_line a edge_pos ec).
  split; [done|]. split; [done|].
  destruct (arrows_added_ok _ _ _ _ _ _ Harr) as [[Hb ->]|(Hb & c & Hac & ->)].
  - left. done.
  - right. split; [done|].
    destruct (arrow_collection_ok_shape _ _ _ _ _ _ Hac)
      as (Hc1 & _ & Hrect & Htri).
    exists (set_label (label a) (set_zorder 1 c)). simpl.
    rewrite <- app_assoc. simpl. rewrite Hcols. done.
Qed.

(** Once the colours are there and the colormap is accepted, the edge line
    is on the axes however the call ends. *)
Lemma drawn_edge_line_stays G pos a ax e0 el edge_pos ec :
  default (G_edges G) (edgelist a) = e0 :: el ->
  edge_positions pos (e0 :: el) = Ok edge_pos ->
  edge_colors_of (edge_color a) (alpha a) (length edge_pos) = Ok ec ->
  cmap_rejected a ec = false ->
  collections (draw_networkx_edges G pos a ax).2 !! length (collections ax) =
    Some (drawn_edge_line a edge_pos ec).
Proof.
  intros Hel Hpos Hcol Hrej.
  rewrite (draw_after_colours _ _ _ _ _ _ _ _ Hel Hpos Hcol), Hrej.
  cbv zeta.
  destruct (arrows_added G a edge_pos ec _) as [ax2|e1] eqn:Harr.
  - assert (Hlook : collections ax2 !! length (collections ax) =
                    Some (drawn_edge_line a edge_pos ec)).
    { destruct (arrows_added_ok _ _ _ _ _ _ Harr) as [[_ ->]|(_ & c & _ & ->)];
        simpl.
      - by apply list_lookup_middle.
      - rewrite lookup_app_l by (rewrite length_app; simpl; lia).
        by apply list_lookup_middle. }
    destruct (view_corners edge_pos); simpl; exact Hlook.
  - simpl. by apply list_lookup_middle.
Qed.

(** X7: as many plain numbers as there are edges are not colours: whatever
    happens to the arrows, the edge line on the axes has no colours of its
    own and carries the numbers as its array with [edge_cmap] as colormap;
    its colour limits are [edge_vmin] and [edge_vmax] when one of them is
    given and are autoscaled otherwise. *)
Theorem numbers_are_mapped_through_the_colormap (G : Graph)
    (pos : gmap node point) (a : draw_args) (ax : axes)
    (l : list color_item) :
  let el := default (G_edges G) (edgelist a) in
  el <> [] ->
  (forall e, e ∈ el -> is_Some (pos !! e.1) /\ is_Some (pos !! e.2)) ->
  edge_color a = EList l ->
  length l = length el ->
  (forall c, c ∈ l -> exists x, c = CNumber x) ->
  edge_cmap a <> Some NotAColormap ->
  exists c,
    collections (draw_networkx_edges G pos a ax).2
      !! length (collections ax) = Some c /\
    colors c = None /\
    coll_array c = Some l /\
    coll_cmap c = edge_cmap a /\
    (edge_vmin a = None -> edge_vmax a = None ->
       coll_clim c = ClimAutoscaled) /\
    (is_Some (edge_vmin a) \/ is_Some (edge_vmax a) ->
       coll_clim c = ClimSet (edge_vmin a) (edge_vmax a)).
Proof.
  cbv zeta. intros Hne Hpos Hcol Hlen Hnum Hcmap.
  destruct (default (G_edges G) (edgelist a)) as [|e0 el] eqn:Hel; [done|].
  destruct (edge_positions_ok pos (e0 :: el) Hpos) as (edge_pos & Hep & Hl).
  assert (Hec : edge_colors_of (edge_color a) (alpha a) (length edge_pos) =
                Ok None).
  { rewrite Hcol, Hl, <- Hlen. apply numbers_go_to_the_colormap; [|done].
    intros ->. discriminate. }
  assert (Hrej : cmap_rejected a None = false).
  { unfold cmap_rejected. destruct (edge_cmap a) as [[?|]|]; done. }
  exists (drawn_edge_line a edge_pos None).
  split; [by apply (drawn_edge_line_stays G pos a ax e0 el)|].
  unfold drawn_edge_line, edge_line_with_alpha, clim_of. rewrite Hcol.
  split; [by destruct (alpha a)|]. split; [done|]. split; [done|].
  split.
  - by intros -> ->.
  - intros [[x Hx]|[x Hx]]; rewrite Hx; [done|]. by destruct (edge_vmin a).
Qed.

(** X8: numbers for colours together with an [edge_cmap] that is no
    colormap make the call raise [AssertionError], after the edge line has
    been added to the axes: the line stays there, without a colour
    mapping. *)
Theorem bad_colormap_raises_after_drawing (G : Graph)
    (pos : gmap node point) (a : draw_args) (ax : axes)
    (l : list color_item) :
  let el := default (G_edges G) (edgelist a) in
  el <> [] ->
  (forall e, e ∈ el -> is_Some (pos !! e.1) /\ is_Some (pos !! e.2)) ->
  edge_color a = EList l ->
  length l = length el ->
  (forall c, c ∈ l -> exists x, c = CNumber x) ->
  edge_cmap a = Some NotAColormap ->
  exists edge_pos,
    edge_positions pos el = Ok edge_pos /\
    draw_networkx_edges G pos a ax =
      (Raise AssertionError,
       add_collection (edge_line_with_alpha a edge_pos None) ax) /\
    coll_array (edge_line_with_alpha a edge_pos None) = None.
Proof.
  cbv zeta. intros Hne Hpos Hcol Hlen Hnum Hcmap.
  destruct (default (G_edges G) (edgelist a)) as [|e0 el] eqn:Hel; [done|].
  destruct (edge_positions_ok pos (e0 :: el) Hpos) as (edge_pos & Hep & Hl).
  assert (Hec : edge_colors_of (edge_color a) (alpha a) (length edge_pos) =
                Ok None).
  { rewrite Hcol, Hl, <- Hlen. apply numbers_go_to_the_colormap; [|done].
    intros ->. discriminate. }
  exists edge_pos. split; [done|]. split.
  - rewrite (draw_after_colours _ _ _ _ _ _ _ _ Hel Hep Hec).
    unfold cmap_rejected. by rewrite Hcmap.
  - unfold edge_line_with_alpha. by destruct (alpha a).
Qed.

(** ** More on the arrow stage *)

Lemma live_length_le (es : list segment) :
  (length (live es) <= length es)%nat.
Proof. pose proof (filter_split_length degenerate es). lia. Qed.

Lemma thetas_live arrowheads es :
  (forall e, e ∈ es -> degenerate e = false -> horizontal e = false) ->
  thetas (arrow_loop arrowheads es) = edge_angle <$> live es.
Proof.
  intros Hall. rewrite arrow_loop_thetas.
  induction es as [|e es IH]; [done|].
  assert (IH' : omap (fun e => (shaft arrowheads e).2) (live es) =
                edge_angle <$> live es).
  { apply IH. intros e' He'. apply Hall. by right. }
  simpl. destruct (degenerate e) eqn:Hd; simpl; [exact IH'|].
  rewrite shaft_theta, (Hall e) by (done || left). simpl. f_equal. exact IH'.
Qed.

Lemma fold_wing_body_absorbs st dist idxs e :
  fold_left (wing_body st dist) idxs (Raise e) = Raise e.
Proof. induction idxs as [|i idxs IH]; simpl; [done | exact IH]. Qed.

Lemma wing_loop_without_widths st :
  a_pos st <> [] -> wing_loop st [] = Raise ZeroDivisionError.
Proof.
  intros Hne. unfold wing_loop.
  destruct (a_pos st) as [|s0 l]; [done|]. simpl.
  apply fold_wing_body_absorbs.
Qed.

Lemma wing_loop_without_arrows st dist :
  a_pos st = [] -> wing_loop st dist = Ok no_wings.
Proof. intros H. unfold wing_loop. by rewrite H. Qed.

(** With widths and without a horizontal edge of nonzero length both loops
    of the triangular mode go through; triangle [i] belongs to the [i]-th
    edge that is not degenerate and is moved back by the length that is
    [i]-th in the whole edge list. *)
Lemma triangles_built apos lw es :
  lw <> [] ->
  (forall e, e ∈ es -> degenerate e = false -> horizontal e = false) ->
  exists w ts,
    wing_loop (arrow_loop true es) ((fun ww => 2.0 * ww) <$> lw) = Ok w /\
    a_verts apos (arrow_loop true es) w = Ok ts /\
    length ts = length (live es) /\
    forall i e e0, live es !! i = Some e -> es !! i = Some e0 ->
      exists wing1 wing2,
        ts !! i =
          Some (moved_back (apos * edge_length e0) (edge_angle e) wing1,
                moved_back (apos * edge_length e0) (edge_angle e) wing2,
                moved_back (apos * edge_length e0) (edge_angle e) e.2).
Proof.
  intros Hlw Hall.
  pose proof (arrow_loop_a_pos true es) as Hapos.
  pose proof (thetas_live true es Hall) as Hthetas.
  pose proof (arrow_loop_lengths true es) as Hlengths.
  pose proof (live_length_le es) as Hle.
  destruct (wing_loop_ok (arrow_loop true es) ((fun ww => 2.0 * ww) <$> lw))
    as (w & Hw & L1 & L2 & L3 & L4 & _).
  { destruct lw; done. }
  { rewrite arrow_loop_orthoslope. apply length_fmap. }
  exists w. unfold a_verts.
  assert (Hn : length (a_pos (arrow_loop true es)) = length (live es)).
  { rewrite Hapos. apply length_fmap. }
  rewrite Hn in *.
  destruct (a_verts_from_total apos (arrow_loop true es) w
              (seq 0 (length (live es)))) as [ts Hts].
  { intros i Hi. apply elem_of_seq in Hi.
    destruct (lookup_lt_is_Some_2 (live es) i) as [e He]; [lia|].
    destruct (lookup_lt_is_Some_2 es i) as [e0 He0]; [lia|].
    destruct (lookup_lt_is_Some_2 (vertex1_x w) i) as [v1x H1]; [lia|].
    destruct (lookup_lt_is_Some_2 (vertex2_x w) i) as [v2x H2]; [lia|].
    destruct (lookup_lt_is_Some_2 (vertex1_y w) i) as [v1y H3]; [lia|].
    destruct (lookup_lt_is_Some_2 (vertex2_y w) i) as [v2y H4]; [lia|].
    unfold a_vert, py_index.
    rewrite H1, H2, H3, H4, Hapos, Hthetas, Hlengths, !list_lookup_fmap,
      He, He0.
    simpl. destruct (shaft true e).1 as [? [? ?]]. by eexists. }
  exists ts. split; [done|]. split; [done|].
  apply a_verts_from_ok in Hts. split.
  { rewrite <- (Forall2_length _ _ _ Hts). apply length_seq. }
  intros i e e0 He He0.
  assert (Hi : (i < length (live es))%nat) by (by apply lookup_lt_Some in He).
  destruct (Forall2_lookup_l _ _ _ i i Hts) as (t & Ht & Hvert).
  { by apply lookup_seq_lt. }
  rewrite Ht. revert Hvert. unfold a_vert, py_index.
  destruct (lookup_lt_is_Some_2 (vertex1_x w) i) as [v1x H1]; [lia|].
  destruct (lookup_lt_is_Some_2 (vertex2_x w) i) as [v2x H2]; [lia|].
  destruct (lookup_lt_is_Some_2 (vertex1_y w) i) as [v1y H3]; [lia|].
  destruct (lookup_lt_is_Some_2 (vertex2_y w) i) as [v2y H4]; [lia|].
  rewrite H1, H2, H3, H4, Hapos, Hthetas, Hlengths, !list_lookup_fmap,
    He, He0.
  simpl. pose proof (shaft_tip e) as Htip.
  destruct (shaft true e).1 as [? [x2 y2]]. simpl in Htip.
  simpl. intros [= <-]. exists (v1x, v1y), (v2x, v2y).
  rewrite <- Htip. reflexivity.
Qed.

(** X9: the lists of the edge loop.  [lengths] has an entry for every edge,
    [a_pos] and [orthoslope] one for every edge that is not degenerate, and
    [thetas] at most as many; [thetas] is as long as [a_pos] exactly when
    no edge of nonzero length is horizontal. *)
Theorem edge_loop_list_lengths (arrowheads : bool) (es : list segment) :
  let st := arrow_loop arrowheads es in
  length (lengths st) = length es /\
  length (a_pos st) = length (live es) /\
  length (orthoslope st) = length (a_pos st) /\
  (length (thetas st) <= length (a_pos st))%nat /\
  (length (a_pos st) <= length es)%nat /\
  (length (thetas st) = length (a_pos st) <->
   forall e, e ∈ es -> degenerate e = false -> horizontal e = false).
Proof.
  cbv zeta.
  assert (Ha : length (a_pos (arrow_loop arrowheads es)) = length (live es)).
  { rewrite arrow_loop_a_pos. apply length_fmap. }
  split; [rewrite arrow_loop_lengths; apply length_fmap|].
  split; [done|].
  split; [rewrite arrow_loop_orthoslope; apply length_fmap|].
  split; [apply thetas_length_le|].
  split; [rewrite Ha; apply live_length_le|].
  split.
  - intros Heq e Hin Hd. destruct (horizontal e) eqn:Hh; [|done].
    pose proof (thetas_short arrowheads es e Hin Hd Hh). lia.
  - intros Hall. rewrite (thetas_live arrowheads es Hall), Ha.
    apply length_fmap.
Qed.

(** X10: the triangular mode, case by case.  Without an edge of nonzero
    length it builds an empty polygon collection.  Otherwise an empty width
    list raises [ZeroDivisionError]; with widths, one horizontal edge of
    nonzero length raises [IndexError]; with widths and without such an
    edge there is one triangle for every edge of nonzero length. *)
Theorem triangular_mode_outcomes (apos : float) (lw : list float)
    (cols : option (list (list float))) (es : list segment) :
  (live es = [] ->
     arrow_collection true apos lw cols es =
       Ok (PolyCollection [] "brown" cols)) /\
  (live es <> [] -> lw = [] ->
     arrow_collection true apos lw cols es = Raise ZeroDivisionError) /\
  (lw <> [] ->
   (exists e, e ∈ es /\ degenerate e = false /\ horizontal e = true) ->
     arrow_collection true apos lw cols es = Raise IndexError) /\
  (lw <> [] ->
   (forall e, e ∈ es -> degenerate e = false -> horizontal e = false) ->
     exists verts,
       arrow_collection true apos lw cols es =
         Ok (PolyCollection verts "brown" cols) /\
       length verts = length (live es)).
Proof.
  split; [|split; [|split]].
  - intros Hlive. unfold arrow_collection.
    assert (Ha : a_pos (arrow_loop true es) = []).
    { by rewrite arrow_loop_a_pos, Hlive. }
    rewrite (wing_loop_without_arrows _ _ Ha). simpl.
    unfold a_verts. by rewrite Ha.
  - intros Hlive ->. unfold arrow_collection. simpl.
    rewrite wing_loop_without_widths; [done|].
    rewrite arrow_loop_a_pos. destruct (live es); done.
  - intros Hlw (e & Hin & Hd & Hh).
    by apply (horizontal_edge_breaks_triangles apos lw cols es e).
  - intros Hlw Hall.
    destruct (triangles_built apos lw es Hlw Hall) as (w & ts & Hw & Hts & Hlen & _).
    exists ts. unfold arrow_collection. rewrite Hw. simpl. rewrite Hts.
    done.
Qed.

(** X11: in triangular mode, with widths and without a horizontal edge of
    nonzero length, triangle [i] is built for the [i]-th edge of nonzero
    length: its three vertices are moved back along that edge's angle, but
    by [apos_on_edge] times the length of the edge that is [i]-th in the
    whole edge list, degenerate edges included. *)
Theorem arrowhead_offset_uses_the_list_index (apos : float)
    (lw : list float) (cols : option (list (list float)))
    (es : list segment) :
  lw <> [] ->
  (forall e, e ∈ es -> degenerate e = false -> horizontal e = false) ->
  exists verts,
    arrow_collection true apos lw cols es =
      Ok (PolyCollection verts "brown" cols) /\
    forall i e e0, live es !! i = Some e -> es !! i = Some e0 ->
      exists wing1 wing2,
        verts !! i =
          Some (moved_back (apos * edge_length e0) (edge_angle e) wing1,
                moved_back (apos * edge_length e0) (edge_angle e) wing2,
                moved_back (apos * edge_length e0) (edge_angle e) e.2).
Proof.
  intros Hlw Hall.
  destruct (triangles_built apos lw es Hlw Hall) as (w & ts & Hw & Hts & _ & Hat).
  exists ts. split; [|exact Hat].
  unfold arrow_collection. rewrite Hw. simpl. by rewrite Hts.
Qed.

Lemma coincident_length x y :
  is_finite x = true -> is_finite y = true ->
  edge_length ((x, y), (x, y)) = 0.
Proof.
  intros Hx Hy. unfold edge_length.
  rewrite (sub_diag_finite x Hx), (sub_diag_finite y Hy). reflexivity.
Qed.

(** X12: [p] is a variable of the edge loop that the wing loop reads after
    the loop has ended, so the distance of every arrow is the head fraction
    of the last edge of the list times twice the arrow's width, and the wing
    abscissas are computed from it. *)
Theorem every_arrow_uses_the_last_edges_fraction (es : list segment)
    (e_last : segment) (lw : list float) (i : nat) (w : float) :
  let st := arrow_loop true (es ++ [e_last]) in
  let d := head_fraction (edge_length e_last) * (2.0 * w) in
  lw !! (i mod length lw) = Some w ->
  dist_to_use (p st) ((fun ww => 2.0 * ww) <$> lw) i = Ok d /\
  forall xa ya tip slope,
    a_pos st !! i = Some ((xa, ya), tip) ->
    orthoslope st !! i = Some slope ->
    exists wg,
      wing_loop st ((fun ww => 2.0 * ww) <$> lw) = Ok wg /\
      vertex1_x wg !! i = Some (xa + arrow_width d slope) /\
      vertex2_x wg !! i = Some (xa - arrow_width d slope).
Proof.
  cbv zeta. intros Hw.
  assert (Hne : (fun ww => 2.0 * ww) <$> lw <> []).
  { destruct lw; [|done]. by rewrite lookup_nil in Hw. }
  assert (Hdw : ((fun ww => 2.0 * ww) <$> lw)
                  !! (i mod length ((fun ww => 2.0 * ww) <$> lw)) =
                Some (2.0 * w)).
  { by rewrite length_fmap, list_lookup_fmap, Hw. }
  split.
  - rewrite dist_to_use_cycles by done. unfold py_index. rewrite Hdw.
    simpl. by rewrite arrow_loop_p.
  - intros xa ya tip slope Ha Hs.
    destruct (wing_loop_ok (arrow_loop true (es ++ [e_last]))
                ((fun ww => 2.0 * ww) <$> lw) Hne)
      as (wg & Hwg & _ & _ & _ & _ & Hat).
    { rewrite arrow_loop_orthoslope. apply length_fmap. }
    exists wg. split; [done|].
    destruct (Hat i (lookup_lt_Some _ _ _ Ha) xa ya tip slope (2.0 * w)
                Ha Hs Hdw) as (H1 & H2 & _).
    rewrite arrow_loop_p in H1, H2. done.
Qed.

(** X13: an edge between two equal finite points at the end of the list
    adds no arrow, but it leaves [p] at minus infinity, so the distance of
    every arrow of the list becomes minus infinity times twice its width. *)
Theorem trailing_coincident_edge_spoils_the_distance (arrowheads : bool)
    (es : list segment) (x y : float) :
  is_finite x = true -> is_finite y = true ->
  let st := arrow_loop arrowheads (es ++ [((x, y), (x, y))]) in
  a_pos st = a_pos (arrow_loop arrowheads es) /\
  p st = neg_infinity /\
  forall lw i w, lw !! (i mod length lw) = Some w ->
    dist_to_use (p st) ((fun ww => 2.0 * ww) <$> lw) i =
      Ok (neg_infinity * (2.0 * w)).
Proof.
  cbv zeta. intros Hx Hy.
  assert (Hp : p (arrow_loop arrowheads (es ++ [((x, y), (x, y))])) =
               neg_infinity).
  { rewrite arrow_loop_p, (coincident_length x y Hx Hy). reflexivity. }
  split; [|split; [exact Hp|]].
  - rewrite !arrow_loop_a_pos, List.filter_app. simpl.
    rewrite (coincident_degenerate x y Hx Hy). simpl.
    by rewrite app_nil_r.
  - intros lw i w Hw. rewrite Hp.
    rewrite dist_to_use_cycles.
    + unfold py_index. by rewrite length_fmap, list_lookup_fmap, Hw.
    + destruct lw; [|done]. by rewrite lookup_nil in Hw.
Qed.

(** X14: with widths the wing loop never raises; it gives every arrow one
    pair of wing vertices, and both lie on the line through the shaft end
    whose slope is the arrow's orthogonal slope. *)
Theorem wings_lie_on_the_orthogonal_line (es : list segment)
    (lw : list float) :
  let st := arrow_loop true es in
  lw <> [] ->
  exists wg,
    wing_loop st ((fun ww => 2.0 * ww) <$> lw) = Ok wg /\
    length (vertex1_x wg) = length (a_pos st) /\
    length (vertex2_x wg) = length (a_pos st) /\
    length (vertex1_y wg) = length (a_pos st) /\
    length (vertex2_y wg) = length (a_pos st) /\
    forall i xa ya tip slope v1x v2x,
      a_pos st !! i = Some ((xa, ya), tip) ->
      orthoslope st !! i = Some slope ->
      vertex1_x wg !! i = Some v1x ->
      vertex2_x wg !! i = Some v2x ->
      vertex1_y wg !! i = Some (ya + 1.0 * slope * (v1x - xa)) /\
      vertex2_y wg !! i = Some (ya + 1.0 * slope * (v2x - xa)).
Proof.
  cbv zeta. intros Hlw.
  assert (Hne : (fun ww => 2.0 * ww) <$> lw <> []) by (by destruct lw).
  destruct (wing_loop_ok (arrow_loop true es)
              ((fun ww => 2.0 * ww) <$> lw) Hne)
    as (wg & Hwg & L1 & L2 & L3 & L4 & Hat).
  { rewrite arrow_loop_orthoslope. apply length_fmap. }
  exists wg. do 5 (split; [done|]).
  intros i xa ya tip slope v1x v2x Ha Hs H1 H2.
  destruct (lookup_lt_is_Some_2 ((fun ww => 2.0 * ww) <$> lw)
              (i mod length ((fun ww => 2.0 * ww) <$> lw))) as [dw Hdw].
  { apply Nat.mod_upper_bound. rewrite length_fmap. destruct lw; [done|].
    simpl. lia. }
  destruct (Hat i (lookup_lt_Some _ _ _ Ha) xa ya tip slope dw Ha Hs Hdw)
    as (H1' & H2' & H3' & H4').
  rewrite H1 in H1'. rewrite H2 in H2'.
  injection H1' as ->. injection H2' as ->. done.
Qed.

(** *** Calls that return *)

(** X15: when the positions and the colours are found and the colormap is
    accepted, a call that builds no triangles (the graph is undirected, or
    [arrows] or [arrowheads] is off) returns the edge line's index: nothing
    in the rectangular arrow stage or in the view update can raise. *)
Theorem call_without_triangles_returns (G : Graph) (pos : gmap node point)
    (a : draw_args) (ax : axes) (ec : option (list (list float))) :
  let el := default (G_edges G) (edgelist a) in
  el <> [] ->
  (forall e, e ∈ el -> is_Some (pos !! e.1) /\ is_Some (pos !! e.2)) ->
  edge_colors_of (edge_color a) (alpha a) (length el) = Ok ec ->
  cmap_rejected a ec = false ->
  is_directed G && arrows a && arrowheads a = false ->
  exists ax',
    draw_networkx_edges G pos a ax = (Ok (Some (length (collections ax))), ax').
Proof.
  cbv zeta. intros Hne Hpos Hcol Hrej Hno.
  destruct (default (G_edges G) (edgelist a)) as [|e0 el] eqn:Hel; [done|].
  destruct (edge_positions_ok pos (e0 :: el) Hpos) as (edge_pos & Hep & Hl).
  rewrite <- Hl in Hcol.
  rewrite (draw_after_colours _ _ _ _ _ _ _ _ Hel Hep Hcol), Hrej.
  cbv zeta.
  assert (Harr : exists ax2,
    arrows_added G a edge_pos ec
      (add_collection (drawn_edge_line a edge_pos ec) ax) = Ok ax2).
  { unfold arrows_added, arrow_collection.
    destruct (is_directed G && arrows a); [|by eexists].
    simpl in Hno. rewrite Hno. by eexists. }
  destruct Harr as [ax2 ->].
  destruct edge_pos as [|s0 edge_pos]; [discriminate|].
  destruct (view_corners_total s0 edge_pos) as [corners ->].
  by eexists.
Qed.

(** X16: a colour list as long as the edge list that holds only sequences
    of three or four numbers is taken as it is, one colour for each edge;
    [to_rgba] is not asked and [alpha] is not applied to it. *)
Theorem rgb_tuples_are_used_as_given (l : list color_item)
    (alpha0 : option float) :
  l <> [] ->
  (forall c, c ∈ l ->
     exists xs, c = CSeq xs /\ (length xs = 3 \/ length xs = 4)%nat) ->
  exists cols,
    edge_colors_of (EList l) alpha0 (length l) = Ok (Some cols) /\
    length cols = length l /\
    forall i xs, l !! i = Some (CSeq xs) -> cols !! i = Some xs.
Proof.
  intros Hne Hall. unfold edge_colors_of. rewrite Nat.eqb_refl.
  assert (H1 : forallb is_string_like l = false).
  { destruct l as [|c l]; [done|].
    destruct (Hall c) as (xs & -> & _); [left|]. reflexivity. }
  assert (H2 : forallb (fun c => negb (is_string_like c)) l = true).
  { apply forallb_forall. intros c Hc. apply list_elem_of_In in Hc.
    destruct (Hall c Hc) as (xs & -> & _). reflexivity. }
  assert (H3 : forallb is_rgb_or_rgba l = true).
  { apply forallb_forall. intros c Hc. apply list_elem_of_In in Hc.
    destruct (Hall c Hc) as (xs & -> & [Hx|Hx]); simpl; rewrite Hx; done. }
  rewrite H1, H2, H3. exists (raw_color <$> l).
  split; [done|]. split; [apply length_fmap|].
  intros i xs Hi. by rewrite list_lookup_fmap, Hi.
Qed.

(** X17: the edge loop treats every edge on its own: the lists it builds
    for two edge lists put end to end are the lists of the first followed by
    the lists of the second.  Only [p] is not built that way: it is the one
    of the second list, when that list is not empty. *)
Theorem edge_loop_splits (arrowheads : bool) (es1 es2 : list segment) :
  let st := arrow_loop arrowheads (es1 ++ es2) in
  let st1 := arrow_loop arrowheads es1 in
  let st2 := arrow_loop arrowheads es2 in
  a_pos st = a_pos st1 ++ a_pos st2 /\
  orthoslope st = orthoslope st1 ++ orthoslope st2 /\
  thetas st = thetas st1 ++ thetas st2 /\
  lengths st = lengths st1 ++ lengths st2 /\
  (es2 <> [] -> p st = p st2).
Proof.
  cbv zeta.
  assert (Ha : a_pos (arrow_loop arrowheads (es1 ++ es2)) =
               a_pos (arrow_loop arrowheads es1) ++
               a_pos (arrow_loop arrowheads es2)).
  { by rewrite !arrow_loop_a_pos, List.filter_app, fmap_app. }
  split; [exact Ha|]. split; [|split; [|split]].
  - by rewrite !arrow_loop_orthoslope, Ha, fmap_app.
  - by rewrite !arrow_loop_thetas, List.filter_app, omap_app.
  - by rewrite !arrow_loop_lengths, fmap_app.
  - intros Hne. destruct (exists_last Hne) as (l & e & ->).
    by rewrite app_assoc, !arrow_loop_p.
Qed.

Lemma arrow_collection_is_unmapped arrowheads apos lw cols edge_pos c :
  arrow_collection arrowheads apos lw cols edge_pos = Ok c ->
  coll_alpha c = None /\ coll_array c = None /\ coll_cmap c = None /\
  coll_clim c = ClimUnset.
Proof.
  unfold arrow_collection. destruct arrowheads.
  - destruct (wing_loop _ _) as [w|]; simpl; [|discriminate].
    destruct (a_verts apos _ w) as [ts|]; simpl; [|discriminate].
    by intros [= <-].
  - by intros [= <-].
Qed.

(** X18: the arrow collection is added right after the edge line and is
    never given the alpha, the array, the colormap or the colour limits of
    the edge line: when the edge colours are numbers, the arrows have no
    colours and no colour mapping. *)
Theorem arrows_are_not_colour_mapped (G : Graph) (pos : gmap node point)
    (a : draw_args) (ax ax' : axes) (h : nat) :
  draw_networkx_edges G pos a ax = (Ok (Some h), ax') ->
  is_directed G && arrows a = true ->
  exists line c,
    collections ax' !! h = Some line /\
    collections ax' !! S h = Some c /\
    colors c = colors line /\
    coll_alpha c = None /\ coll_array c = None /\ coll_cmap c = None /\
    coll_clim c = ClimUnset.
Proof.
  intros H Hdir. destruct (draw_ok_cases _ _ _ _ _ _ H) as
    [(? & _)|(edge_pos & ec & ax2 & corners & _ & _ & _ & Harr & _ & Hh & ->)];
    [discriminate|].
  injection Hh as ->.
  destruct (arrows_added_ok _ _ _ _ _ _ Harr) as [[Hb _]|(_ & c & Hac & ->)];
    [congruence|].
  destruct (arrow_collection_is_unmapped _ _ _ _ _ _ Hac) as (? & ? & ? & ?).
  destruct (arrow_collection_ok_shape _ _ _ _ _ _ Hac) as (Hc & _).
  destruct (drawn_edge_line_attributes a edge_pos ec) as (_ & Hcols & _).
  exists (drawn_edge_line a edge_pos ec),
    (set_label (label a) (set_zorder 1 c)).
  simpl. rewrite <- app_assoc. split; [by apply list_lookup_middle|].
  split.
  { rewrite lookup_app_r by lia.
    by replace (S (length (collections ax)) - length (collections ax))%nat
      with 1%nat by lia. }
  rewrite Hcols. done.
Qed.

End Draw.

(** * Worked examples *)

Local Open Scope float_scope.


Lemma orthoslope_never_divides_by_zero_witness :
  a_pos (arrow_loop sample_cos sample_sin sample_arctan2 true
           [((0, 0), (100, 0))]) !! 0%nat = Some ((87.5, 0), (100, 0)) /\
  orthoslope (arrow_loop sample_cos sample_sin sample_arctan2 true
                [((0, 0), (100, 0))]) !! 0%nat = Some (-1250000000000000) /\
  orthoslope_denominator 0 0 = 0.00000000000001.
Proof.
  destruct (orthoslope_never_divides_by_zero sample_cos sample_sin
              sample_arctan2 true [((0, 0), (100, 0))] 0 87.5 0 100 0)
    as (Hs & _ & Heps & _); [reflexivity|].
  split; [reflexivity|]. split; [exact Hs | apply Heps; reflexivity].
Defined.

Lemma vertical_edge_shaft_end_is_inexact_witness :
  sample_arctan2 50 0 = right_angle /\
  a_pos (arrow_loop sample_cos sample_sin sample_arctan2 true
           [((0, 0), (0, 50))]) =
    [((2.2962127484012872e-15, 37.5), (0, 50))].
Proof.
  split; [reflexivity|].
  apply (vertical_edge_shaft_end_is_inexact sample_cos sample_sin
           sample_arctan2); reflexivity.
Defined.

Lemma arrowhead_offset_uses_the_wrong_length_witness :
  sample_cos right_angle = 6.123233995736766e-17 /\
  arrow_collection sample_cos sample_sin sample_arctan2 true 0.15 [1.0] None
      [((0, 0), (0, 0)); ((0, 0), (0, 50))] =
    Ok (PolyCollection
          [((1.500000000000002, 37.5), (-1.4999999999999976, 37.5),
            (0, 50))] "brown" None).
Proof.
  split; [reflexivity|].
  apply (arrowhead_offset_uses_the_wrong_length sample_cos sample_sin
           sample_arctan2 None); reflexivity.
Defined.

Lemma widths_are_used_cyclically_witness :
  [1.0; 3.0] <> [] /\
  exists w, [1.0; 3.0] !! (4 mod 2)%nat = Some w /\
    dist_to_use 0.75 [2.0; 6.0] 4 = Ok (0.75 * (2.0 * w)).
Proof.
  split; [discriminate|].
  apply (widths_are_used_cyclically 0.75 [1.0; 3.0] 4). discriminate.
Defined.

Lemma arrow_width_uses_the_unsquared_slope_witness :
  orthoslope (arrow_loop sample_cos sample_sin sample_arctan2 true
                [((0, 0), (0, 50))]) !! 0%nat =
    Some 1.8369701987210297e-16 /\
  exists wg,
    wing_loop (arrow_loop sample_cos sample_sin sample_arctan2 true
                 [((0, 0), (0, 50))]) [2.0] = Ok wg /\
    vertex1_x wg !! 0%nat = Some 1.500000000000002 /\
    vertex2_x wg !! 0%nat = Some (-1.4999999999999976).
Proof.
  split; [reflexivity|].
  apply (arrow_width_uses_the_unsquared_slope sample_cos sample_sin
           sample_arctan2 [((0, 0), (0, 50))] [1.0] 0
           2.2962127484012872e-15 37.5 (0, 50) 1.8369701987210297e-16 1.5);
    reflexivity.
Defined.

Lemma mismatched_colour_list_raises_witness :
  edge_color two_colours_args = EList [CNumber 0.5; CNumber 0.7] /\
  draw_networkx_edges sample_cos sample_sin sample_arctan2 sample_amin sample_amax sample_to_rgba
      one_edge_graph vertical_pos two_colours_args empty_axes =
    (Raise (ValueError msg_single_or_m), empty_axes).
Proof.
  split; [reflexivity|].
  apply (mismatched_colour_list_raises sample_cos sample_sin sample_arctan2 sample_amin
           sample_amax sample_to_rgba one_edge_graph vertical_pos two_colours_args
           empty_axes [CNumber 0.5; CNumber 0.7]);
    [discriminate | | reflexivity | simpl; lia | simpl; lia].
  intros e He. apply list_elem_of_singleton in He. subst e.
  split; eexists; reflexivity.
Defined.

Lemma no_edges_returns_none_witness :
  draw_networkx_edges sample_cos sample_sin sample_arctan2 sample_amin sample_amax sample_to_rgba
      one_edge_graph vertical_pos empty_edgelist_args empty_axes =
    (Ok None, empty_axes) /\
  draw_networkx_edges sample_cos sample_sin sample_arctan2 sample_amin sample_amax sample_to_rgba
      no_edge_graph vertical_pos default_args empty_axes =
    (Ok None, empty_axes).
Proof.
  split.
  - apply (proj1 (no_edges_returns_none sample_cos sample_sin sample_arctan2 sample_amin
                    sample_amax sample_to_rgba one_edge_graph vertical_pos
                    empty_edgelist_args empty_axes)). reflexivity.
  - apply (proj2 (no_edges_returns_none sample_cos sample_sin sample_arctan2 sample_amin
                    sample_amax sample_to_rgba no_edge_graph vertical_pos default_args
                    empty_axes)); reflexivity.
Defined.

(** The call of C5 as a whole: the default arguments, one horizontal edge.
    [IndexError] is raised after the edge line has been added to the
    axes. *)
Lemma horizontal_edge_call :
  draw_networkx_edges sample_cos sample_sin sample_arctan2 sample_amin sample_amax sample_to_rgba
      one_edge_graph horizontal_pos default_args empty_axes =
    (Raise IndexError,
     {| collections :=
          [set_zorder 1
             (LineCollection [((0, 0), (100, 0))] (Some [[0; 0; 0; 1]])
                [1.0] (Some "solid"))];
        datalim := [Autolim (Segments [((0, 0), (100, 0))])];
        autoscale_view_calls := 0 |}).
Proof. reflexivity. Qed.

(** The same call with the vertical edge of C1 and C3 goes through. *)
Lemma vertical_edge_call :
  draw_networkx_edges sample_cos sample_sin sample_arctan2 sample_amin sample_amax sample_to_rgba
      one_edge_graph vertical_pos default_args empty_axes =
    (Ok (Some 0%nat),
     {| collections :=
          [set_zorder 1
             (LineCollection [((0, 0), (0, 50))] (Some [[0; 0; 0; 1]])
                [1.0] (Some "solid"));
           set_zorder 1
             (PolyCollection
                [((1.5000000000000016, 30), (-1.499999999999998, 30),
                  (-4.592425496802575e-16, 42.5))] "brown"
                (Some [[0; 0; 0; 1]]))];
        datalim :=
          [Autolim (Segments [((0, 0), (0, 50))]);
           Autolim
             (Polygons
                [((1.5000000000000016, 30), (-1.499999999999998, 30),
                  (-4.592425496802575e-16, 42.5))]);
           Corners ((0, -2.5), (0, 52.5))];
        autoscale_view_calls := 1 |}).
Proof. reflexivity. Qed.

(** The call of C6 as a whole: after the edge of length 0 the arrowhead of
    the vertical edge keeps its tip at (0, 50). *)
Lemma degenerate_then_vertical_call :
  draw_networkx_edges sample_cos sample_sin sample_arctan2 sample_amin sample_amax sample_to_rgba
      two_edge_graph coincident_pos default_args empty_axes =
    (Ok (Some 0%nat),
     {| collections :=
          [set_zorder 1
             (LineCollection [((0, 0), (0, 0)); ((0, 0), (0, 50))]
                (Some [[0; 0; 0; 1]]) [1.0] (Some "solid"));
           set_zorder 1
             (PolyCollection
                [((1.500000000000002, 37.5), (-1.4999999999999976, 37.5),
                  (0, 50))] "brown" (Some [[0; 0; 0; 1]]))];
        datalim :=
          [Autolim (Segments [((0, 0), (0, 0)); ((0, 0), (0, 50))]);
           Autolim
             (Polygons
                [((1.500000000000002, 37.5), (-1.4999999999999976, 37.5),
                  (0, 50))]);
           Corners ((0, -2.5), (0, 52.5))];
        autoscale_view_calls := 1 |}).
Proof. reflexivity. Qed.

(** C2, on the code: the wing offset is computed with 1 + slope where the
    solution of the distance formula and the line equation has
    1 + slope^2.  For the orthogonal slope -0.75 of an edge of direction
    (3, 4) and the distance 1.5 the code gives 3 where the squared slope
    gives 1.2; for the slope -1 of an edge at 45 degrees it gives infinity.
    For the horizontal edge from (0,0) to (100,0) with width 1.0 the slope
    is -1.25e15 and the distance 1.75: the code's offset is 2.47e-08 where
    the squared slope gives 1.4e-15.  For the vertical edge from (0,0) to
    (0,50), where the call goes through, the code's offset is
    1.4999999999999998 where the squared slope gives 1.5. *)
Lemma arrow_width_is_not_the_specified_one :
  arrow_width 1.5 (-0.75) = 3 /\
  arrow_width_as_specified 1.5 (-0.75) = 1.2 /\
  arrow_width 1.5 (-1) = infinity /\
  arrow_width_as_specified 1.5 (-1) = 1.0606601717798212 /\
  orthoslope (arrow_loop sample_cos sample_sin sample_arctan2 true
                [((0, 0), (100, 0))]) = [-1250000000000000] /\
  dist_to_use
    (p (arrow_loop sample_cos sample_sin sample_arctan2 true
          [((0, 0), (100, 0))])) [2.0] 0 = Ok 1.75 /\
  wing_loop
    (arrow_loop sample_cos sample_sin sample_arctan2 true
       [((0, 0), (100, 0))]) [2.0] =
    Ok {| vertex1_x := [87.5 + 2.4748737341529174e-08];
          vertex1_y := [-30935929.373754334];
          vertex2_x := [87.5 - 2.4748737341529174e-08];
          vertex2_y := [30935929.373754334] |} /\
  arrow_width 1.75 (-1250000000000000) = 2.4748737341529174e-08 /\
  arrow_width_as_specified 1.75 (-1250000000000000) =
    1.3999999999999999e-15 /\
  orthoslope (arrow_loop sample_cos sample_sin sample_arctan2 true
                [((0, 0), (0, 50))]) = [1.8369701987210297e-16] /\
  dist_to_use
    (p (arrow_loop sample_cos sample_sin sample_arctan2 true
          [((0, 0), (0, 50))])) [2.0] 0 = Ok 1.5 /\
  wing_loop
    (arrow_loop sample_cos sample_sin sample_arctan2 true
       [((0, 0), (0, 50))]) [2.0] =
    Ok {| vertex1_x := [2.2962127484012872e-15 + 1.4999999999999998];
          vertex1_y := [37.5];
          vertex2_x := [2.2962127484012872e-15 - 1.4999999999999998];
          vertex2_y := [37.5] |} /\
  arrow_width 1.5 1.8369701987210297e-16 = 1.4999999999999998 /\
  arrow_width_as_specified 1.5 1.8369701987210297e-16 = 1.5.
Proof. repeat split; reflexivity. Qed.

(** C8 is false as stated when there is no edge to draw: with two colours
    and a graph without edges the function returns [None] and raises
    nothing. *)
Lemma mismatched_colours_without_edges :
  edge_color two_colours_args = EList [CNumber 0.5; CNumber 0.7] /\
  G_edges no_edge_graph = [] /\
  draw_networkx_edges sample_cos sample_sin sample_arctan2 sample_amin sample_amax sample_to_rgba
      no_edge_graph vertical_pos two_colours_args empty_axes =
    (Ok None, empty_axes).
Proof. repeat split; reflexivity. Qed.

(** ** Worked examples for the other properties *)

Lemma coincident_pos_is_complete (e : nat * nat) :
  e ∈ G_edges two_edge_graph ->
  is_Some (coincident_pos !! e.1) /\ is_Some (coincident_pos !! e.2).
Proof.
  intros He. simpl in He.
  apply elem_of_cons in He as [->|He];
    [|apply list_elem_of_singleton in He as ->];
    split; eexists; reflexivity.
Qed.

Lemma vertical_pos_is_complete (e : nat * nat) :
  e ∈ G_edges one_edge_graph ->
  is_Some (vertical_pos !! e.1) /\ is_Some (vertical_pos !! e.2).
Proof.
  intros He. simpl in He. apply list_elem_of_singleton in He as ->.
  split; eexists; reflexivity.
Qed.

Lemma edge_positions_follow_the_edge_list_witness :
  edge_positions vertical_pos [(0, 1)%nat] = Ok [((0, 0), (0, 50))] /\
  length [((0, 0), (0, 50))] = length [(0, 1)%nat].
Proof.
  split; [reflexivity|].
  apply (edge_positions_follow_the_edge_list vertical_pos [(0, 1)%nat]
           [((0, 0), (0, 50))]).
  reflexivity.
Defined.

Lemma missing_position_raises_key_error_witness :
  partial_pos !! 1%nat = None /\
  exists n,
    draw_networkx_edges sample_cos sample_sin sample_arctan2 sample_amin sample_amax sample_to_rgba
        one_edge_graph partial_pos default_args empty_axes =
      (Raise (KeyError n), empty_axes) /\
    partial_pos !! n = None.
Proof.
  split; [reflexivity|].
  destruct (missing_position_raises_key_error sample_cos sample_sin
              sample_arctan2 sample_amin sample_amax sample_to_rgba one_edge_graph partial_pos
              default_args empty_axes 0%nat 1%nat) as (n & Hcall & Hn & _).
  - simpl. left.
  - right. reflexivity.
  - exists n. split; [exact Hcall | exact Hn].
Defined.

Lemma mixed_colour_list_raises_witness :
  edge_color mixed_colours_args = EList [CName "r"; CNumber 0.5] /\
  draw_networkx_edges sample_cos sample_sin sample_arctan2 sample_amin sample_amax sample_to_rgba
      two_edge_graph coincident_pos mixed_colours_args empty_axes =
    (Raise (ValueError msg_names_or_numbers), empty_axes).
Proof.
  split; [reflexivity|].
  apply (mixed_colour_list_raises sample_cos sample_sin sample_arctan2 sample_amin
           sample_amax sample_to_rgba two_edge_graph coincident_pos mixed_colours_args
           empty_axes [CName "r"; CNumber 0.5] "r" (CNumber 0.5)).
  - discriminate.
  - exact coincident_pos_is_complete.
  - reflexivity.
  - reflexivity.
  - left.
  - right. left.
  - reflexivity.
Defined.

Lemma raising_call_draws_at_most_the_edge_line_witness :
  autoscale_view_calls
    (draw_networkx_edges sample_cos sample_sin sample_arctan2 sample_amin
       sample_amax sample_to_rgba one_edge_graph horizontal_pos default_args
       empty_axes).2 = 0%nat.
Proof.
  destruct (raising_call_draws_at_most_the_edge_line sample_cos sample_sin
              sample_arctan2 sample_amin sample_amax sample_to_rgba
              one_edge_graph horizontal_pos default_args empty_axes
              (draw_networkx_edges sample_cos sample_sin sample_arctan2
                 sample_amin sample_amax sample_to_rgba one_edge_graph
                 horizontal_pos default_args empty_axes).2 IndexError)
    as (Ha & _).
  - reflexivity.
  - exact Ha.
Defined.


Lemma returning_call_adds_edge_line_and_arrows_witness :
  exists edge_pos line,
    edge_positions vertical_pos [(0, 1)%nat] = Ok edge_pos /\
    geom line = Segments edge_pos.
Proof.
  destruct (returning_call_adds_edge_line_and_arrows sample_cos sample_sin
              sample_arctan2 sample_amin sample_amax sample_to_rgba one_edge_graph vertical_pos
              default_args empty_axes
              (draw_networkx_edges sample_cos sample_sin sample_arctan2 sample_amin
                 sample_amax sample_to_rgba one_edge_graph vertical_pos default_args
                 empty_axes).2 0%nat)
    as (edge_pos & line & Hpos & Hg & _).
  - reflexivity.
  - exists edge_pos, line. split; [exact Hpos | exact Hg].
Defined.

Lemma numbers_are_mapped_through_the_colormap_witness :
  exists c,
    collections
      (draw_networkx_edges sample_cos sample_sin sample_arctan2 sample_amin
         sample_amax sample_to_rgba two_edge_graph coincident_pos two_colours_args
         empty_axes).2 !! 0%nat = Some c /\
    colors c = None /\
    coll_array c = Some [CNumber 0.5; CNumber 0.7].
Proof.
  destruct (numbers_are_mapped_through_the_colormap sample_cos sample_sin
              sample_arctan2 sample_amin sample_amax sample_to_rgba two_edge_graph coincident_pos
              two_colours_args empty_axes [CNumber 0.5; CNumber 0.7])
    as (c & Hlook & Hcols & Harr & _).
  - discriminate.
  - exact coincident_pos_is_complete.
  - reflexivity.
  - reflexivity.
  - intros c Hc. apply elem_of_cons in Hc as [->|Hc];
      [|apply list_elem_of_singleton in Hc as ->]; eexists; reflexivity.
  - discriminate.
  - exists c. split; [exact Hlook|]. split; [exact Hcols | exact Harr].
Defined.

Lemma bad_colormap_raises_after_drawing_witness :
  exists edge_pos,
    draw_networkx_edges sample_cos sample_sin sample_arctan2 sample_amin sample_amax sample_to_rgba
        two_edge_graph coincident_pos bad_colormap_args empty_axes =
      (Raise AssertionError,
       add_collection (edge_line_with_alpha bad_colormap_args edge_pos None)
         empty_axes).
Proof.
  destruct (bad_colormap_raises_after_drawing sample_cos sample_sin
              sample_arctan2 sample_amin sample_amax sample_to_rgba two_edge_graph coincident_pos
              bad_colormap_args empty_axes [CNumber 0.5; CNumber 0.7])
    as (edge_pos & _ & Hcall & _).
  - discriminate.
  - exact coincident_pos_is_complete.
  - reflexivity.
  - reflexivity.
  - intros c Hc. apply elem_of_cons in Hc as [->|Hc];
      [|apply list_elem_of_singleton in Hc as ->]; eexists; reflexivity.
  - reflexivity.
  - exists edge_pos. exact Hcall.
Defined.

Lemma arrowhead_offset_uses_the_list_index_witness :
  exists verts,
    arrow_collection sample_cos sample_sin sample_arctan2 true 0.15 [1.0]
        None [((0, 0), (0, 0)); ((0, 0), (0, 50))] =
      Ok (PolyCollection verts "brown" None).
Proof.
  destruct (arrowhead_offset_uses_the_list_index sample_cos sample_sin
              sample_arctan2 0.15 [1.0] None
              [((0, 0), (0, 0)); ((0, 0), (0, 50))])
    as (verts & Hcall & _).
  - discriminate.
  - intros e He. apply elem_of_cons in He as [->|He];
      [|apply list_elem_of_singleton in He as ->].
    + discriminate.
    + reflexivity.
  - exists verts. exact Hcall.
Defined.

Lemma every_arrow_uses_the_last_edges_fraction_witness :
  dist_to_use
    (p (arrow_loop sample_cos sample_sin sample_arctan2 true
          ([((0, 0), (0, 5))] ++ [((0, 0), (0, 50))])))
    [2.0] 0 = Ok 1.5.
Proof.
  apply (every_arrow_uses_the_last_edges_fraction sample_cos sample_sin
           sample_arctan2 [((0, 0), (0, 5))] ((0, 0), (0, 50)) [1.0] 0 1.0).
  reflexivity.
Defined.

Lemma trailing_coincident_edge_spoils_the_distance_witness :
  is_finite 3 = true /\
  p (arrow_loop sample_cos sample_sin sample_arctan2 true
       ([((0, 0), (0, 50))] ++ [((3, 4), (3, 4))])) = neg_infinity.
Proof.
  split; [reflexivity|].
  apply (trailing_coincident_edge_spoils_the_distance sample_cos sample_sin
           sample_arctan2 true [((0, 0), (0, 50))] 3 4); reflexivity.
Defined.

Lemma wings_lie_on_the_orthogonal_line_witness :
  exists wg,
    wing_loop
      (arrow_loop sample_cos sample_sin sample_arctan2 true
         [((0, 0), (0, 50))]) [2.0] = Ok wg /\
    length (vertex1_x wg) = 1%nat.
Proof.
  destruct (wings_lie_on_the_orthogonal_line sample_cos sample_sin
              sample_arctan2 [((0, 0), (0, 50))] [1.0])
    as (wg & Hwg & Hlen & _).
  - discriminate.
  - exists wg. split; [exact Hwg | exact Hlen].
Defined.

Lemma call_without_triangles_returns_witness :
  exists ax',
    draw_networkx_edges sample_cos sample_sin sample_arctan2 sample_amin sample_amax sample_to_rgba
        one_edge_graph vertical_pos rectangular_args empty_axes =
      (Ok (Some 0%nat), ax').
Proof.
  apply (call_without_triangles_returns sample_cos sample_sin sample_arctan2 sample_amin
           sample_amax sample_to_rgba one_edge_graph vertical_pos rectangular_args
           empty_axes (Some [[0; 0; 0; 1]])).
  - discriminate.
  - exact vertical_pos_is_complete.
  - reflexivity.
  - reflexivity.
  - reflexivity.
Defined.

Lemma rgb_tuples_are_used_as_given_witness :
  exists cols,
    edge_colors_of sample_to_rgba
        (EList [CSeq [1; 0; 0]; CSeq [0; 1; 0; 0.5]]) None 2 =
      Ok (Some cols) /\
    length cols = 2%nat.
Proof.
  destruct (rgb_tuples_are_used_as_given sample_to_rgba
              [CSeq [1; 0; 0]; CSeq [0; 1; 0; 0.5]] None)
    as (cols & Hcols & Hlen & _).
  - discriminate.
  - intros c Hc. apply elem_of_cons in Hc as [->|Hc];
      [|apply list_elem_of_singleton in Hc as ->]; eexists; split;
      [reflexivity | by left | reflexivity | by right].
  - exists cols. split; [exact Hcols | exact Hlen].
Defined.

Lemma arrows_are_not_colour_mapped_witness :
  exists line c,
    collections
      (draw_networkx_edges sample_cos sample_sin sample_arctan2 sample_amin
         sample_amax sample_to_rgba one_edge_graph vertical_pos default_args
         empty_axes).2 !! 1%nat = Some c /\
    colors c = colors line /\ coll_alpha c = None.
Proof.
  destruct (arrows_are_not_colour_mapped sample_cos sample_sin
              sample_arctan2 sample_amin sample_amax sample_to_rgba one_edge_graph vertical_pos
              default_args empty_axes
              (draw_networkx_edges sample_cos sample_sin sample_arctan2 sample_amin
                 sample_amax sample_to_rgba one_edge_graph vertical_pos default_args
                 empty_axes).2 0%nat)
    as (line & c & _ & Hc & Hcols & Halpha & _).
  - reflexivity.
  - reflexivity.
  - exists line, c. split; [exact Hc|]. split; [exact Hcols | exact Halpha].
Defined.

Lemma width_index_follows_the_arrow_index_witness :
  sample_arctan2 50 0 = right_angle /\
  a_pos (arrow_loop sample_cos sample_sin sample_arctan2 true
           five_edges_first_degenerate) !! 3%nat =
    Some ((40, 37.5), (40, 50)) /\
  dist_to_use
    (p (arrow_loop sample_cos sample_sin sample_arctan2 true
          five_edges_first_degenerate))
    ((fun ww => 2.0 * ww) <$> two_widths) 3 = Ok (0.75 * (2.0 * 3.0)).
Proof.
  split; [reflexivity|].
  destruct (width_index_follows_the_arrow_index sample_cos sample_sin
              sample_arctan2) as (_ & _ & Ha & _ & Hd & _);
    [reflexivity..|].
  split; [exact Ha | exact Hd].
Defined.
